(** * go-sauce: the SAUCE record parser and its report

    A shallow embedding of package [sauce] (sauce.go): the type catalogue
    [SAUCEDataType] / [SAUCEFileType], the record [SAUCE], the decoder
    [Parse] with its helper [parseDate], and the report [Dump] with
    [DataTypeString] and [FileTypeString].

    Conventions.
    - A Go [byte] is a [Byte.byte]; [[]byte] and [[n]byte] are [list byte].
    - The unsigned integers [uint8], [uint16], [uint32] and [int] are [Z];
      every value the decoder builds is in range by construction.
    - A Go [string] is a sequence of bytes, hence a Rocq [string].
    - A function returning [(r *SAUCE, err error)] returns
      [option SAUCE * option error], with [nil] read as [None].
    - The file system is a finite map from file names to contents. *)

From Stdlib Require Import ZArith List Lia.
From Stdlib Require Import Strings.Ascii Strings.String Strings.Byte.
From Stdlib Require Import Numbers.DecimalString.
From stdpp Require Import base option list gmap strings.

Local Open Scope Z_scope.

(** ** Bytes, slices and little-endian integers *)

#[global] Instance byte_eq_decision : EqDecision byte := Byte.byte_eq_dec.

(** [uint8(c)], [uint32(c)], [rune(c)], ... of a byte [c]. *)
Definition byte_Z (c : byte) : Z := Z.of_N (Byte.to_N c).

(** [b[lo:hi]] for [lo <= hi <= len(b)]. *)
Definition slice {A} (lo hi : nat) (b : list A) : list A :=
  take (hi - lo) (drop lo b).

(** [b[i]] for [i < len(b)]. *)
Definition index (b : list byte) (i : nat) : byte := nth i b x00.

(** [bytes.Equal]. *)
Definition bytes_Equal (a b : list byte) : bool := bool_decide (a = b).

(** [binary.LittleEndian.Uint16] and [binary.LittleEndian.Uint32]. *)
Definition binary_LittleEndian_Uint16 (b : list byte) : Z :=
  Z.lor (byte_Z (index b 0)) (Z.shiftl (byte_Z (index b 1)) 8).

Definition binary_LittleEndian_Uint32 (b : list byte) : Z :=
  Z.lor (Z.lor (Z.lor (byte_Z (index b 0))
                      (Z.shiftl (byte_Z (index b 1)) 8))
               (Z.shiftl (byte_Z (index b 2)) 16))
        (Z.shiftl (byte_Z (index b 3)) 24).

(** ** Errors *)

(** The values of type [error] that [Parse] can return: [errors.New],
    the [*os.PathError] of a failed system call, and [io.EOF]. *)
Inductive error :=
| errors_New (msg : string)
| os_PathError (op path msg : string)
| io_EOF.

#[global] Instance error_eq_decision : EqDecision error.
Proof. solve_decision. Defined.

(** [err.Error()]. *)
Definition error_Error (err : error) : string :=
  match err with
  | errors_New msg => msg
  | os_PathError op path msg => op +:+ " " +:+ path +:+ ": " +:+ msg
  | io_EOF => "EOF"
  end.

(** The [*strconv.NumError] of a failed conversion. *)
Inductive strconv_Err := strconv_ErrSyntax | strconv_ErrRange.

Record strconv_NumError :=
  { Func : string; Num : string; Err : strconv_Err }.

(** ** Files

    [os.Open], [File.Stat], [File.Seek] and [File.Read] on a file system
    that maps a name to the bytes of a regular file.  A handle carries the
    name, the contents and the current offset. *)

Record os_File := { name : string; contents : list byte; offset : Z }.

Definition os_Open (fs : gmap string (list byte)) (path : string)
  : option os_File * option error :=
  match fs !! path with
  | Some data =>
    (Some {| name := path; contents := data; offset := 0 |}, None)
  | None => (None, Some (os_PathError "open" path "no such file or directory"))
  end.

(** [i, err = f.Stat()] followed by [i.Size()]. *)
Definition os_Stat_Size (f : os_File) : Z * option error :=
  (Z.of_nat (length (contents f)), None).

(** [f.Seek(off, whence)]: whence 0, 1, 2 is start, current, end. *)
Definition os_Seek (f : os_File) (off whence : Z)
  : os_File * Z * option error :=
  let base :=
    if whence =? 0 then 0
    else if whence =? 1 then offset f
    else Z.of_nat (length (contents f)) in
  let pos := base + off in
  if pos <? 0
  then (f, 0, Some (os_PathError "seek" (name f) "invalid argument"))
  else ({| name := name f; contents := contents f; offset := pos |},
        pos, None).

(** [n, err = f.Read(b)]: fills a prefix of [b], returns the new handle,
    the buffer, the count and the error. *)
Definition os_Read (f : os_File) (b : list byte)
  : os_File * list byte * Z * option error :=
  match b with
  | [] => (f, b, 0, None)
  | _ =>
    match drop (Z.to_nat (offset f)) (contents f) with
    | [] => (f, b, 0, Some io_EOF)
    | rest =>
      let got := take (length b) rest in
      ({| name := name f; contents := contents f;
          offset := offset f + Z.of_nat (length got) |},
       got ++ drop (length got) b, Z.of_nat (length got), None)
    end
  end.

(** ** Package [unicode/utf8] and [unicode.IsSpace] *)

Definition utf8_RuneError : Z := 0xFFFD.
Definition utf8_RuneSelf : Z := 0x80.

(** The table [first] of package utf8, as (size, lowest and highest
    accepted second byte); [None] marks an invalid leading byte.  ASCII
    bytes are handled before the table is consulted. *)
Definition utf8_first (s0 : Z) : option (nat * Z * Z) :=
  if s0 <? 0xC2 then None
  else if s0 <? 0xE0 then Some (2%nat, 0x80, 0xBF)
  else if s0 =? 0xE0 then Some (3%nat, 0xA0, 0xBF)
  else if s0 =? 0xED then Some (3%nat, 0x80, 0x9F)
  else if s0 <? 0xF0 then Some (3%nat, 0x80, 0xBF)
  else if s0 =? 0xF0 then Some (4%nat, 0x90, 0xBF)
  else if s0 <? 0xF4 then Some (4%nat, 0x80, 0xBF)
  else if s0 =? 0xF4 then Some (4%nat, 0x80, 0x8F)
  else None.

Definition utf8_cont (c : Z) : bool := (0x80 <=? c) && (c <=? 0xBF).

(** [utf8.DecodeRuneInString]: the first rune of [s] and its width. *)
Definition utf8_DecodeRuneInString (s : list byte) : Z * nat :=
  match s with
  | [] => (utf8_RuneError, 0%nat)
  | c0 :: t =>
    let s0 := byte_Z c0 in
    if s0 <? utf8_RuneSelf then (s0, 1%nat)
    else
      match utf8_first s0 with
      | None => (utf8_RuneError, 1%nat)
      | Some (sz, lo, hi) =>
        if (length s <? sz)%nat then (utf8_RuneError, 1%nat)
        else
          let s1 := byte_Z (index s 1) in
          if (s1 <? lo) || (hi <? s1) then (utf8_RuneError, 1%nat)
          else if (sz <=? 2)%nat
          then (Z.lor (Z.shiftl (Z.land s0 0x1F) 6) (Z.land s1 0x3F), 2%nat)
          else
            let s2 := byte_Z (index s 2) in
            if negb (utf8_cont s2) then (utf8_RuneError, 1%nat)
            else if (sz <=? 3)%nat
            then (Z.lor (Z.lor (Z.shiftl (Z.land s0 0x0F) 12)
                               (Z.shiftl (Z.land s1 0x3F) 6))
                        (Z.land s2 0x3F), 3%nat)
            else
              let s3 := byte_Z (index s 3) in
              if negb (utf8_cont s3) then (utf8_RuneError, 1%nat)
              else (Z.lor (Z.lor (Z.lor (Z.shiftl (Z.land s0 0x07) 18)
                                        (Z.shiftl (Z.land s1 0x3F) 12))
                                 (Z.shiftl (Z.land s2 0x3F) 6))
                          (Z.land s3 0x3F), 4%nat)
      end
  end.

(** [utf8.RuneStart]. *)
Definition utf8_RuneStart (c : byte) : bool :=
  negb (Z.land (byte_Z c) 0xC0 =? 0x80).

(** The scan of [utf8.DecodeLastRuneInString]: from [start] down to [lim],
    stop at the first byte that can start a rune. *)
Fixpoint utf8_scan_back (s : list byte) (steps start : nat) : nat :=
  match steps with
  | O => start
  | S k =>
    if utf8_RuneStart (index s start) then start
    else match start with
         | O => O
         | S p => utf8_scan_back s k p
         end
  end.

(** [utf8.DecodeLastRuneInString]: the last rune of [s] and its width. *)
Definition utf8_DecodeLastRuneInString (s : list byte) : Z * nat :=
  let end_ := length s in
  match end_ with
  | O => (utf8_RuneError, 0%nat)
  | S start =>
    let r := byte_Z (index s start) in
    if r <? utf8_RuneSelf then (r, 1%nat)
    else
      let lim := (end_ - 4)%nat in
      let start' :=
        match start with
        | O => O
        | S p => utf8_scan_back s (start - lim) p
        end in
      let '(r, size) := utf8_DecodeRuneInString (slice start' end_ s) in
      if (start' + size =? end_)%nat then (r, size)
      else (utf8_RuneError, 1%nat)
  end.

(** [unicode.IsSpace]: the Unicode White_Space property. *)
Definition unicode_IsSpace (r : Z) : bool :=
  if r <=? 0xFF
  then ((0x09 <=? r) && (r <=? 0x0D)) || (r =? 0x20) || (r =? 0x85)
       || (r =? 0xA0)
  else (r =? 0x1680) || ((0x2000 <=? r) && (r <=? 0x200A))
       || (r =? 0x2028) || (r =? 0x2029) || (r =? 0x202F)
       || (r =? 0x205F) || (r =? 0x3000).

(** ** Package [strings] *)

(** [strings.TrimLeftFunc]: [skip] counts the bytes that remain of the
    rune in progress, as [for i, r := range s] steps over whole runes. *)
Fixpoint strings_TrimLeftFunc_loop (f : Z -> bool) (skip : nat)
    (s : list byte) : list byte :=
  match s with
  | [] => []
  | _ :: t =>
    match skip with
    | S k => strings_TrimLeftFunc_loop f k t
    | O =>
      let '(r, size) := utf8_DecodeRuneInString s in
      if f r then strings_TrimLeftFunc_loop f (size - 1) t else s
    end
  end.

Definition strings_TrimLeftFunc (s : list byte) (f : Z -> bool) : list byte :=
  strings_TrimLeftFunc_loop f 0 s.

(** [strings.TrimRightFunc]: drop last runes while [f] holds.  Every step
    removes at least one byte, so [length s] steps are enough. *)
Fixpoint strings_TrimRightFunc_loop (f : Z -> bool) (fuel : nat)
    (s : list byte) : list byte :=
  match fuel with
  | O => s
  | S k =>
    match s with
    | [] => []
    | _ =>
      let '(r, size) := utf8_DecodeLastRuneInString s in
      if f r
      then strings_TrimRightFunc_loop f k (take (length s - size) s)
      else s
    end
  end.

Definition strings_TrimRightFunc (s : list byte) (f : Z -> bool) : list byte :=
  strings_TrimRightFunc_loop f (length s) s.

(** [strings.TrimSpace]: leading and trailing white space, as defined by
    Unicode, removed. *)
Definition strings_TrimSpace (s : string) : string :=
  string_of_list_byte
    (strings_TrimRightFunc
       (strings_TrimLeftFunc (list_byte_of_string s) unicode_IsSpace)
       unicode_IsSpace).

(** ** Package [strconv] *)

(** The digit loop of the fast path of [strconv.Atoi]:
    [ch -= '0'; if ch > 9 { fail }; n = n*10 + int(ch)] on bytes. *)
Fixpoint strconv_digits (s : list byte) (n : Z) : option Z :=
  match s with
  | [] => Some n
  | c :: t =>
    let ch := (byte_Z c - 48) mod 256 in
    if 9 <? ch then None else strconv_digits t (n * 10 + ch)
  end.

(** [strconv.ParseInt(s, 10, 0)] with 64-bit [int], the slow path of
    [strconv.Atoi] for the empty string and for 19 bytes or more. *)
Definition strconv_ParseInt (s : string) : Z * option strconv_NumError :=
  let syntax :=
    Some {| Func := "ParseInt"; Num := s; Err := strconv_ErrSyntax |} in
  let range :=
    Some {| Func := "ParseInt"; Num := s; Err := strconv_ErrRange |} in
  match list_byte_of_string s with
  | [] => (0, syntax)
  | c :: t =>
    let neg := bool_decide (c = "-"%byte) in
    let body := if neg || bool_decide (c = "+"%byte) then t else c :: t in
    match body with
    | [] => (0, syntax)
    | _ =>
      match strconv_digits body 0 with
      | None => (0, syntax)
      | Some un =>
        let cutoff := 2 ^ 63 in
        if negb neg && (cutoff <=? un) then (cutoff - 1, range)
        else if neg && (cutoff <? un) then (- cutoff, range)
        else (if neg then - un else un, None)
      end
    end
  end.

(** [strconv.Atoi]. *)
Definition strconv_Atoi (s : string) : Z * option strconv_NumError :=
  let b := list_byte_of_string s in
  let sLen := length b in
  if ((0 <? sLen) && (sLen <? 19))%nat then
    let syntax :=
      Some {| Func := "Atoi"; Num := s; Err := strconv_ErrSyntax |} in
    match b with
    | [] => (0, syntax)
    | c :: t =>
      let signed := bool_decide (c = "-"%byte) || bool_decide (c = "+"%byte) in
      let body := if signed then t else b in
      match body with
      | [] => (0, syntax)
      | _ =>
        match strconv_digits body 0 with
        | None => (0, syntax)
        | Some n => (if bool_decide (c = "-"%byte) then - n else n, None)
        end
      end
    end
  else
    match strconv_ParseInt s with
    | (i64, Some nerr) =>
        (i64, Some {| Func := "Atoi"; Num := Num nerr; Err := Err nerr |})
    | res => res
    end.

(** ** Package [time]

    A [time.Time] in UTC at midnight, which is all [parseDate] builds, is
    the number of days since 1 January of year 1 of the proleptic
    Gregorian calendar. *)

Record time_Time := { absDays : Z }.

Definition time_isLeap (year : Z) : bool :=
  (year mod 4 =? 0) && (negb (year mod 100 =? 0) || (year mod 400 =? 0)).

(** [daysBefore[m]]: days in a non-leap year before month [m + 1]. *)
Definition time_daysBefore (m : Z) : Z :=
  nth (Z.to_nat m) [0; 31; 59; 90; 120; 151; 181; 212; 243; 273; 304; 334] 365.

(** Days from 1 January of year 1 to 1 January of [year]. *)
Definition time_daysSinceYear1 (year : Z) : Z :=
  let y := year - 1 in
  365 * y + y / 4 - y / 100 + y / 400.

(** [time.Date(year, month, day, 0, 0, 0, 0, time.UTC)]: month and day
    outside their usual ranges are normalised, as in Go. *)
Definition time_Date (year month day : Z) : time_Time :=
  let m := month - 1 in
  let year := year + m / 12 in
  let m := m mod 12 in
  let d := time_daysSinceYear1 year + time_daysBefore m in
  let d := if time_isLeap year && (2 <=? m) then d + 1 else d in
  {| absDays := d + (day - 1) |}.

(** [t.Date()]: year, month and day of [t]. *)
Definition time_Time_Date (t : time_Time) : Z * Z * Z :=
  let d := absDays t in
  let n := d / 146097 in
  let y := 400 * n in
  let d := d - 146097 * n in
  let n := d / 36524 in
  let n := n - Z.shiftr n 2 in
  let y := y + 100 * n in
  let d := d - 36524 * n in
  let n := d / 1461 in
  let y := y + 4 * n in
  let d := d - 1461 * n in
  let n := d / 365 in
  let n := n - Z.shiftr n 2 in
  let y := y + n in
  let yday := d - 365 * n in
  let year := y + 1 in
  let leap := time_isLeap year in
  if leap && (yday =? 31 + 29 - 1) then (year, 2, 29)
  else
    let day := if leap && (31 + 29 - 1 <? yday) then yday - 1 else yday in
    let month := day / 31 in
    let end_ := time_daysBefore (month + 1) in
    if end_ <=? day then (year, month + 2, day - end_ + 1)
    else (year, month + 1, day - time_daysBefore month + 1).

(** ** Package [fmt]: the verbs [%d] and zero-padded fields *)

(** The line feed that ends every format string of [Dump]. *)
Definition LF : string := String "010" "".

(** [%d] of an integer. *)
Definition fmt_d (n : Z) : string := NilZero.string_of_int (Z.to_int n).

(** [appendInt(b, x, width)] of package time: sign, then the digits of
    the magnitude padded with zeros to [width]. *)
Definition time_appendInt (x : Z) (width : nat) : string :=
  let digits := fmt_d (Z.abs x) in
  let pad := string_of_list_ascii
               (repeat "0"%char (width - String.length digits)) in
  (if x <? 0 then "-" else "") +:+ pad +:+ digits.

(** [t.String()], the layout [2006-01-02 15:04:05.999999999 -0700 MST]. *)
Definition time_Time_String (t : time_Time) : string :=
  let '(year, month, day) := time_Time_Date t in
  time_appendInt year 4 +:+ "-" +:+ time_appendInt month 2 +:+ "-"
  +:+ time_appendInt day 2 +:+ " 00:00:00 +0000 UTC".

(** * Package [sauce] *)

Definition ASCIISub : byte := x1a.
Definition SAUCEDate : string := "19700101".

Definition DATA_TYPE_NONE : Z := 0.
Definition DATA_TYPE_CHARACTER : Z := 1.
Definition DATA_TYPE_BITMAP : Z := 2.
Definition DATA_TYPE_VECTOR : Z := 3.
Definition DATA_TYPE_AUDIO : Z := 4.
Definition DATA_TYPE_BINARYTEXT : Z := 5.
Definition DATA_TYPE_XBIN : Z := 6.
Definition DATA_TYPE_ARCHIVE : Z := 7.
Definition DATA_TYPE_EXECUTABLE : Z := 8.

Definition SAUCEID : list byte :=
  ["S"%byte; "A"%byte; "U"%byte; "C"%byte; "E"%byte].
Definition SAUCEVersion : list byte := [x00; x00].

Definition SAUCEDataType : gmap Z string :=
  list_to_map
    [ (DATA_TYPE_NONE, "None");
      (DATA_TYPE_CHARACTER, "Character");
      (DATA_TYPE_BITMAP, "Bitmap");
      (DATA_TYPE_VECTOR, "Vector");
      (DATA_TYPE_AUDIO, "Audio");
      (DATA_TYPE_BINARYTEXT, "BinaryText");
      (DATA_TYPE_XBIN, "XBin");
      (DATA_TYPE_ARCHIVE, "Archive");
      (DATA_TYPE_EXECUTABLE, "Executable") ].

Definition SAUCEFileType : gmap Z (gmap Z string) :=
  list_to_map
    [ (DATA_TYPE_CHARACTER,
       list_to_map
         [ (0, "ASCII"); (1, "ANSi"); (2, "ANSiMation"); (3, "RIP script");
           (4, "PCBoard"); (5, "Avatar"); (6, "HTML"); (7, "Source");
           (8, "Tundradraw") ]);
      (DATA_TYPE_BITMAP,
       list_to_map
         [ (0, "GIF"); (1, "PCX"); (2, "LBM/FF"); (3, "TGA"); (4, "FLI");
           (5, "FLC"); (6, "BMP"); (7, "GL"); (8, "DL"); (9, "WPG");
           (10, "PNG"); (11, "JPG"); (12, "MPG"); (13, "AVI") ]);
      (DATA_TYPE_VECTOR,
       list_to_map [ (0, "DXF"); (1, "DWG"); (2, "WPG"); (3, "3DS") ]);
      (DATA_TYPE_AUDIO,
       list_to_map
         [ (0, "MOD"); (1, "669"); (2, "STM"); (3, "S3M"); (4, "MTM");
           (5, "FAR"); (6, "ULT"); (7, "AMF"); (8, "DMF"); (9, "OKT");
           (10, "ROL"); (11, "CMF"); (12, "MID"); (13, "SADT"); (14, "VOC");
           (15, "WAV"); (16, "SMP8"); (17, "SMP8S"); (18, "SMP16");
           (19, "SMP16S"); (20, "PATCH8"); (21, "PATCH16"); (22, "XM");
           (23, "HSC"); (24, "IT") ]);
      (DATA_TYPE_ARCHIVE,
       list_to_map
         [ (0, "ZIP"); (1, "ARJ"); (2, "LZH"); (3, "ARC"); (4, "TAR");
           (5, "ZOO"); (6, "RAR"); (7, "UC2"); (8, "PAK"); (9, "SQZ") ]) ].

(** SAUCE (Standard Architecture for Universal Comment Extensions) record. *)
Record SAUCE := {
  ID : list byte;        (* [5]byte *)
  Version : list byte;   (* [2]byte *)
  Title : string;
  Author : string;
  Group : string;
  Date : time_Time;
  FileSize : Z;          (* uint32 *)
  DataType : Z;          (* uint8 *)
  FileType : Z;          (* uint8 *)
  TInfo : list Z;        (* [4]uint16 *)
  Comments : Z;          (* uint8 *)
  TFlags : Z;            (* uint8 *)
  TInfos : list byte     (* [22]byte *)
}.

(** Assignments [r.Field = v]. *)
Definition set_Title (v : string) (r : SAUCE) : SAUCE :=
  {| ID := ID r; Version := Version r; Title := v; Author := Author r;
     Group := Group r; Date := Date r; FileSize := FileSize r;
     DataType := DataType r; FileType := FileType r; TInfo := TInfo r;
     Comments := Comments r; TFlags := TFlags r; TInfos := TInfos r |}.
Definition set_Author (v : string) (r : SAUCE) : SAUCE :=
  {| ID := ID r; Version := Version r; Title := Title r; Author := v;
     Group := Group r; Date := Date r; FileSize := FileSize r;
     DataType := DataType r; FileType := FileType r; TInfo := TInfo r;
     Comments := Comments r; TFlags := TFlags r; TInfos := TInfos r |}.
Definition set_Group (v : string) (r : SAUCE) : SAUCE :=
  {| ID := ID r; Version := Version r; Title := Title r; Author := Author r;
     Group := v; Date := Date r; FileSize := FileSize r;
     DataType := DataType r; FileType := FileType r; TInfo := TInfo r;
     Comments := Comments r; TFlags := TFlags r; TInfos := TInfos r |}.
Definition set_Date (v : time_Time) (r : SAUCE) : SAUCE :=
  {| ID := ID r; Version := Version r; Title := Title r; Author := Author r;
     Group := Group r; Date := v; FileSize := FileSize r;
     DataType := DataType r; FileType := FileType r; TInfo := TInfo r;
     Comments := Comments r; TFlags := TFlags r; TInfos := TInfos r |}.
Definition set_FileSize (v : Z) (r : SAUCE) : SAUCE :=
  {| ID := ID r; Version := Version r; Title := Title r; Author := Author r;
     Group := Group r; Date := Date r; FileSize := v;
     DataType := DataType r; FileType := FileType r; TInfo := TInfo r;
     Comments := Comments r; TFlags := TFlags r; TInfos := TInfos r |}.
Definition set_DataType (v : Z) (r : SAUCE) : SAUCE :=
  {| ID := ID r; Version := Version r; Title := Title r; Author := Author r;
     Group := Group r; Date := Date r; FileSize := FileSize r;
     DataType := v; FileType := FileType r; TInfo := TInfo r;
     Comments := Comments r; TFlags := TFlags r; TInfos := TInfos r |}.
Definition set_FileType (v : Z) (r : SAUCE) : SAUCE :=
  {| ID := ID r; Version := Version r; Title := Title r; Author := Author r;
     Group := Group r; Date := Date r; FileSize := FileSize r;
     DataType := DataType r; FileType := v; TInfo := TInfo r;
     Comments := Comments r; TFlags := TFlags r; TInfos := TInfos r |}.
(** [r.TInfo[i] = v]. *)
Definition set_TInfo (i : nat) (v : Z) (r : SAUCE) : SAUCE :=
  {| ID := ID r; Version := Version r; Title := Title r; Author := Author r;
     Group := Group r; Date := Date r; FileSize := FileSize r;
     DataType := DataType r; FileType := FileType r;
     TInfo := <[i:=v]> (TInfo r);
     Comments := Comments r; TFlags := TFlags r; TInfos := TInfos r |}.

(** [r.TInfo[i]]. *)
Definition TInfo_at (r : SAUCE) (i : nat) : Z := nth i (TInfo r) 0.

(** New creates an empty SAUCE record: the two named fields, and the
    zero value everywhere else. *)
Definition New : SAUCE :=
  {| ID := SAUCEID; Version := SAUCEVersion;
     Title := ""; Author := ""; Group := "";
     Date := {| absDays := 0 |};
     FileSize := 0; DataType := 0; FileType := 0;
     TInfo := replicate 4 0;
     Comments := 0; TFlags := 0; TInfos := replicate 22 x00 |}.

(** [s[lo:hi]] on a string. *)
Definition str_slice (lo hi : nat) (s : string) : string :=
  String.substring lo (hi - lo) s.

Definition parseDate (r : SAUCE) (s : string) : time_Time :=
  let '(y, _) := strconv_Atoi (str_slice 0 4 s) in
  let '(m, _) := strconv_Atoi (str_slice 4 6 s) in
  let '(d, _) := strconv_Atoi (str_slice 6 8 s) in
  time_Date y m d.

(** Parse SAUCE record from a file.  The line that [log.Printf] writes to
    the standard logger before the date is parsed is not part of the
    result and is left out. *)
Definition Parse (fs : gmap string (list byte)) (filename : string)
  : option SAUCE * option error :=
  match os_Open fs filename with
  | (_, Some err) => (None, Some err)
  | (None, None) => (None, None)
  | (Some f, None) =>
    match os_Stat_Size f with
    | (_, Some err) => (None, Some err)
    | (size, None) =>
      if size <? 129 then (None, Some (errors_New "File too short"))
      else
        match os_Seek f (-128) 2 with
        | (_, _, Some err) => (None, Some err)
        | (f, _, None) =>
          let b := replicate 128 x00 in
          match os_Read f b with
          | (_, _, _, Some err) => (None, Some err)
          | (_, b, n, None) =>
            if negb (n =? 128) then (None, Some (errors_New "Short read"))
            else if negb (bytes_Equal (slice 0 5 b) SAUCEID)
            then (None, Some (errors_New "No SAUCE record"))
            else
              let r := New in
              let r := set_Title (strings_TrimSpace (string_of_list_byte (slice 7 41 b))) r in
              let r := set_Author (strings_TrimSpace (string_of_list_byte (slice 41 61 b))) r in
              let r := set_Group (strings_TrimSpace (string_of_list_byte (slice 61 81 b))) r in
              let r := set_Date (parseDate r (string_of_list_byte (slice 82 90 b))) r in
              let r := set_FileSize (binary_LittleEndian_Uint32 (slice 91 95 b)) r in
              let r := set_DataType (byte_Z (index b 94)) r in
              let r := set_FileType (byte_Z (index b 95)) r in
              let r := set_TInfo 0 (binary_LittleEndian_Uint16 (slice 96 98 b)) r in
              let r := set_TInfo 1 (binary_LittleEndian_Uint16 (slice 98 100 b)) r in
              let r := set_TInfo 2 (binary_LittleEndian_Uint16 (slice 100 102 b)) r in
              let r := set_TInfo 3 (binary_LittleEndian_Uint16 (slice 102 104 b)) r in
              (Some r, None)
          end
        end
    end
  end.

(** DataTypeString returns the DataType as string: indexing a map with a
    missing key gives the zero value. *)
Definition DataTypeString (r : SAUCE) : string :=
  default "" (SAUCEDataType !! DataType r).

(** FileTypeString returns the FileType as string; indexing a nil inner
    map gives the zero value too. *)
Definition FileTypeString (r : SAUCE) : string :=
  default "" (default ∅ (SAUCEFileType !! DataType r) !! FileType r).

(** Dump the contents of the SAUCE record to stdout: the text written by
    each [fmt.Printf], in order. *)
Definition Dump (r : SAUCE) : list string :=
  [ "id......: " +:+ string_of_list_byte (ID r) +:+ LF;
    "version.: " +:+ fmt_d (byte_Z (index (Version r) 0))
                 +:+ fmt_d (byte_Z (index (Version r) 1)) +:+ LF;
    "title...: " +:+ Title r +:+ LF;
    "author..: " +:+ Author r +:+ LF;
    "group...: " +:+ Group r +:+ LF;
    "date....: " +:+ time_Time_String (Date r) +:+ LF;
    "filesize: " +:+ fmt_d (FileSize r) +:+ LF;
    "datatype: " +:+ fmt_d (DataType r) +:+ " (" +:+ DataTypeString r +:+ ")" +:+ LF ]
  ++ (match SAUCEFileType !! DataType r with
      | Some _ =>
        [ "filetype: " +:+ fmt_d (FileType r) +:+ " ("
                       +:+ FileTypeString r +:+ ")" +:+ LF ]
      | None => [ "filetype: " +:+ fmt_d (FileType r) +:+ LF ]
      end)
  ++ [ "tinfo...: " +:+ fmt_d (TInfo_at r 0) +:+ ", " +:+ fmt_d (TInfo_at r 1)
                    +:+ ", " +:+ fmt_d (TInfo_at r 2) +:+ ", "
                    +:+ fmt_d (TInfo_at r 3) +:+ LF ]
  ++ (if DataType r =? 1 then
        if (FileType r =? 0) || (FileType r =? 1) || (FileType r =? 2)
           || (FileType r =? 4) || (FileType r =? 5) || (FileType r =? 8)
        then
          let w := TInfo_at r 0 in
          let h := TInfo_at r 1 in
          let w := if w =? 0 then 80 else w in
          [ "size....: " +:+ fmt_d w +:+ " x " +:+ fmt_d h +:+ " characters" +:+ LF ]
        else if FileType r =? 3
        then [ "size....: " +:+ fmt_d (TInfo_at r 0) +:+ " x "
                            +:+ fmt_d (TInfo_at r 1) +:+ " pixels" +:+ LF ]
        else []
      else if DataType r =? 2
      then [ "size....: " +:+ fmt_d (TInfo_at r 0) +:+ " x "
                          +:+ fmt_d (TInfo_at r 1) +:+ " pixels" +:+ LF ]
      else []).

(** * Command [sauce-dump]

    What [main] prints for the file names [args], print by print; it
    calls [Parse] of package [sauce]. *)
Definition main (fs : gmap string (list byte)) (args : list string)
  : list string :=
  flat_map
    (fun filename =>
       match Parse fs filename with
       | (_, Some err) =>
         [ filename +:+ ": error " +:+ error_Error err +:+ LF ]
       | (None, None) => [ filename +:+ ": no SAUCE record" +:+ LF ]
       | (Some r, None) => (filename +:+ LF) :: Dump r
       end)
    args.

(** * What [Parse] computes *)

(** The last 128 bytes of a file. *)
Definition trailer (f : list byte) : list byte := drop (length f - 128) f.

(** The record [Parse] assembles from the 128 bytes it has read. *)
Definition record_of (b : list byte) : SAUCE :=
  {| ID := SAUCEID; Version := SAUCEVersion;
     Title := strings_TrimSpace (string_of_list_byte (slice 7 41 b));
     Author := strings_TrimSpace (string_of_list_byte (slice 41 61 b));
     Group := strings_TrimSpace (string_of_list_byte (slice 61 81 b));
     Date := parseDate New (string_of_list_byte (slice 82 90 b));
     FileSize := binary_LittleEndian_Uint32 (slice 91 95 b);
     DataType := byte_Z (index b 94);
     FileType := byte_Z (index b 95);
     TInfo := [ binary_LittleEndian_Uint16 (slice 96 98 b);
                binary_LittleEndian_Uint16 (slice 98 100 b);
                binary_LittleEndian_Uint16 (slice 100 102 b);
                binary_LittleEndian_Uint16 (slice 102 104 b) ];
     Comments := 0; TFlags := 0; TInfos := replicate 22 x00 |}.

(** * Sample files

    A trailer laid out as SAUCE writers do: signature, version, title
    (35 bytes), author (20), group (20), date (8), file size (4), data
    type, file type, four type-info words, comment count, flags and 22
    filler bytes; text is padded with spaces, integers are little-endian. *)

Definition pad (n : nat) (s : string) : list byte :=
  take n (list_byte_of_string s ++ replicate n " "%byte).

Definition le_bytes (n : nat) (v : Z) : list byte :=
  map (fun i => default x00 (Byte.of_N (Z.to_N (Z.shiftr v (8 * Z.of_nat i) mod 256))))
      (seq 0 n).

Definition sauce_trailer (version title author group date : string)
    (filesize datatype filetype t1 t2 t3 t4 comments flags : Z)
    (filler : list byte) : list byte :=
  SAUCEID ++ pad 2 version ++ pad 35 title ++ pad 20 author ++ pad 20 group
  ++ pad 8 date ++ le_bytes 4 filesize
  ++ le_bytes 1 datatype ++ le_bytes 1 filetype
  ++ le_bytes 2 t1 ++ le_bytes 2 t2 ++ le_bytes 2 t3 ++ le_bytes 2 t4
  ++ le_bytes 1 comments ++ le_bytes 1 flags ++ take 22 (filler ++ replicate 22 x00).

(** An ANSi picture: some text, the SUB byte, then the trailer. *)
Definition ansi_file : list byte :=
  list_byte_of_string "Hello, world" ++ [ASCIISub]
  ++ sauce_trailer "00" "Title" "Author" "Group" "19970401"
       13 1 1 80 25 0 0 0 0 [].

(** The smallest file [Parse] accepts: one byte and a trailer. *)
Definition minimal_file : list byte :=
  [ASCIISub]
  ++ sauce_trailer "00" "" "" "" "19700101" 0 0 0 0 0 0 0 0 0 [].

(** A text file that carries no record. *)
Definition plain_file : list byte := replicate 200 "a"%byte.

(** A file shorter than a trailer and one byte. *)
Definition short_file : list byte := replicate 128 "a"%byte.

(** A record that announces two comment lines, sets a flag and names a
    font in the filler. *)
Definition tagged_file : list byte :=
  list_byte_of_string "Hello" ++ [ASCIISub]
  ++ sauce_trailer "00" "Tagged" "Author" "Group" "20010203"
       5 1 1 80 25 0 0 2 1 (list_byte_of_string "IBM VGA").

(** A title that fills its 35 bytes, and one padded with NUL bytes. *)
Definition long_title_file : list byte :=
  [ASCIISub]
  ++ sauce_trailer "00" "ABCDEFGHIJKLMNOPQRSTUVWXYZ123456789" "Author"
       "Group" "19970401" 0 1 1 80 25 0 0 0 0 [].

Definition nul_padded (n : nat) (s : string) : string :=
  string_of_list_byte (take n (list_byte_of_string s ++ replicate n x00)).

Definition nul_title_file : list byte :=
  [ASCIISub]
  ++ sauce_trailer "00" (nul_padded 35 "Title") "Author" "Group" "19970401"
       0 1 1 80 25 0 0 0 0 [].

(** A RIP script of 320 by 200, and one whose width is left at zero. *)
Definition rip_file : list byte :=
  [ASCIISub]
  ++ sauce_trailer "00" "Rip" "Author" "Group" "19970401"
       0 1 3 320 200 0 0 0 0 [].

Definition rip_zero_file : list byte :=
  [ASCIISub]
  ++ sauce_trailer "00" "Rip" "Author" "Group" "19970401"
       0 1 3 0 200 0 0 0 0 [].

(** ASCII text whose width is left at zero. *)
Definition ascii_file : list byte :=
  [ASCIISub]
  ++ sauce_trailer "00" "Text" "Author" "Group" "19970401"
       0 1 0 0 25 0 0 0 0 [].

(** A date whose month is blank. *)
Definition undated_file : list byte :=
  [ASCIISub]
  ++ sauce_trailer "00" "No month" "Author" "Group" "1997  01"
       0 1 1 80 25 0 0 0 0 [].

(** A BinaryText screen dump; its file type is half the line width. *)
Definition bintext_file : list byte :=
  [ASCIISub]
  ++ sauce_trailer "00" "Bin" "Author" "Group" "19970401"
       0 5 80 0 0 0 0 0 0 [].

Definition sample_fs : gmap string (list byte) :=
  list_to_map
    [ ("ansi.ans", ansi_file); ("minimal.ans", minimal_file);
      ("plain.txt", plain_file); ("short.txt", short_file);
      ("tagged.ans", tagged_file); ("long.ans", long_title_file);
      ("nul.ans", nul_title_file); ("rip.rip", rip_file);
      ("rip0.rip", rip_zero_file); ("ascii.asc", ascii_file);
      ("undated.ans", undated_file); ("screen.bin", bintext_file) ].

(** * Definitions used to state the claims *)

(** Remove the leading and the trailing bytes that satisfy [p]. *)
Fixpoint drop_while (p : byte -> bool) (s : list byte) : list byte :=
  match s with
  | [] => []
  | c :: t => if p c then drop_while p t else s
  end.

Definition trim_bytes (p : byte -> bool) (s : list byte) : list byte :=
  rev (drop_while p (rev (drop_while p s))).

(** The ASCII bytes that [unicode.IsSpace] accepts: tab, line feed,
    vertical tab, form feed, carriage return and space. *)
Definition ascii_space (c : byte) : bool :=
  ((0x09 <=? byte_Z c) && (byte_Z c <=? 0x0D)) || (byte_Z c =? 0x20).

Definition is_ascii (c : byte) : Prop := byte_Z c < 0x80.

(** Trimming as the specification words it, "whitespace (space and
    control characters)": the space, the bytes below it and DEL. *)
Definition spec_space_or_control (c : byte) : bool :=
  (byte_Z c <=? 0x20) || (byte_Z c =? 0x7F).

Definition spec_trim (s : list byte) : string :=
  string_of_list_byte (trim_bytes spec_space_or_control s).

(** A text field of a record: the value is the field trimmed by
    [strings.TrimSpace]; on a field of ASCII bytes that removes exactly
    the leading and trailing bytes of [ascii_space]. *)
Definition trimmed_field (field : list byte) (v : string) : Prop :=
  v = strings_TrimSpace (string_of_list_byte field)
  /\ (Forall is_ascii field ->
      v = string_of_list_byte (trim_bytes ascii_space field)).

(** A sub-field of the date: the integer its bytes spell, zero when they
    spell none. *)
Definition date_field (lo hi : nat) (b : list byte) : Z :=
  match strconv_Atoi (string_of_list_byte (slice lo hi b)) with
  | (n, None) => n
  | (_, Some _) => 0
  end.

(** * Further samples and definitions *)

(** A record whose date field is blank, one appended to a single byte
    and one appended to a longer text. *)
Definition blank_date_trailer : list byte :=
  sauce_trailer "00" "Undated" "Author" "Group" "        "
    0 1 1 80 25 0 0 0 0 [].

Definition bitmap_trailer : list byte :=
  sauce_trailer "00" "Picture" "Author" "Group" "19991231"
    0 2 0 640 480 0 0 0 0 [].

Definition unknown_type_trailer : list byte :=
  sauce_trailer "00" "Unknown" "Author" "Group" "19991231"
    0 200 9 1 2 3 4 0 0 [].

Definition html_trailer : list byte :=
  sauce_trailer "00" "Page" "Author" "Group" "19991231"
    0 1 6 0 0 0 0 0 0 [].

Definition character_9_trailer : list byte :=
  sauce_trailer "00" "Odd" "Author" "Group" "20000229"
    0 1 9 0 0 0 0 0 0 [].

Definition more_fs : gmap string (list byte) :=
  list_to_map
    [ ("blank.ans", [ASCIISub] ++ blank_date_trailer);
      ("blank2.ans", list_byte_of_string "Some text" ++ blank_date_trailer);
      ("picture.gif", [ASCIISub] ++ bitmap_trailer);
      ("unknown.bin", [ASCIISub] ++ unknown_type_trailer);
      ("page.htm", [ASCIISub] ++ html_trailer);
      ("odd.txt", [ASCIISub] ++ character_9_trailer);
      ("ansi.ans", ansi_file) ].

(** The byte at offset [i] of a block, as a number. *)
Definition byte_at (b : list byte) (i : nat) : Z := byte_Z (index b i).

(** [v] is a run of consecutive bytes of [field]. *)
Definition cut_from (field : list byte) (v : string) : Prop :=
  exists pre post, field = pre ++ list_byte_of_string v ++ post.

(** [t] neither starts nor ends with an ASCII white-space byte. *)
Definition no_outer_blank (t : list byte) : Prop :=
  (forall c rest, t = c :: rest -> ascii_space c = false)
  /\ (forall init c, t = init ++ [c] -> ascii_space c = false).

(** Every byte of [p] is an ASCII white-space byte. *)
Definition blanks (p : list byte) : Prop :=
  Forall (fun c => ascii_space c = true) p.

(** The number of file types registered for a data type: the codes
    0 .. n-1 have names. *)
Definition file_type_count (dt : Z) : Z :=
  if dt =? DATA_TYPE_CHARACTER then 9
  else if dt =? DATA_TYPE_BITMAP then 14
  else if dt =? DATA_TYPE_VECTOR then 4
  else if dt =? DATA_TYPE_AUDIO then 25
  else if dt =? DATA_TYPE_ARCHIVE then 10
  else 0.


(** The numbers 0 .. n-1. *)
Definition Z_range (n : nat) : list Z := map Z.of_nat (seq 0 n).

(** A record with the given data type and file type, all else as [New]
    leaves it. *)
Definition typed_record (dt ft : Z) : SAUCE :=
  set_FileType ft (set_DataType dt New).

(** ** Numbers in the date field *)

Definition is_digit (c : byte) : bool :=
  (48 <=? byte_Z c) && (byte_Z c <=? 57).

(** The value of a run of digits. *)
Definition decimal (ds : list byte) : Z :=
  fold_left (fun n c => n * 10 + (byte_Z c - 48)) ds 0.

(** One digit or more. *)
Definition unsigned_numeric (ds : list byte) : bool :=
  match ds with
  | [] => false
  | _ => forallb is_digit ds
  end.

(** An optional sign, then one digit or more. *)
Definition numeric (b : list byte) : bool :=
  match b with
  | [] => false
  | c :: ds =>
    if bool_decide (c = "-"%byte) || bool_decide (c = "+"%byte)
    then unsigned_numeric ds
    else unsigned_numeric b
  end.

(** The integer that [b] spells, and zero when it spells none. *)
Definition signed_decimal (b : list byte) : Z :=
  if numeric b then
    match b with
    | [] => 0
    | c :: ds =>
      if bool_decide (c = "-"%byte) then - decimal ds
      else if bool_decide (c = "+"%byte) then decimal ds
      else decimal b
    end
  else 0.

(** ** Calendar dates *)

Definition days_in_month (year month : Z) : Z :=
  if month =? 2 then (if time_isLeap year then 29 else 28)
  else if (month =? 4) || (month =? 6) || (month =? 9) || (month =? 11)
  then 30 else 31.

Definition valid_date (year month day : Z) : Prop :=
  1 <= month <= 12 /\ 1 <= day <= days_in_month year month.

(** A date as [Dump] shows it. *)
Definition date_shown (year month day : Z) : string :=
  time_appendInt year 4 +:+ "-" +:+ time_appendInt month 2 +:+ "-"
  +:+ time_appendInt day 2 +:+ " 00:00:00 +0000 UTC".

(** The two halves of [Time.Date]: the year and the day of the year of
    a day number, then the month and the day of a day of the year. *)
Definition year_day_of (d : Z) : Z * Z :=
  let n := d / 146097 in
  let y := 400 * n in
  let d := d - 146097 * n in
  let n := d / 36524 in
  let n := n - Z.shiftr n 2 in
  let y := y + 100 * n in
  let d := d - 36524 * n in
  let n := d / 1461 in
  let y := y + 4 * n in
  let d := d - 1461 * n in
  let n := d / 365 in
  let n := n - Z.shiftr n 2 in
  let y := y + n in
  (y + 1, d - 365 * n).

Definition month_day_of (leap : bool) (yday : Z) : Z * Z :=
  if leap && (yday =? 31 + 29 - 1) then (2, 29)
  else
    let day := if leap && (31 + 29 - 1 <? yday) then yday - 1 else yday in
    let month := day / 31 in
    let end_ := time_daysBefore (month + 1) in
    if end_ <=? day then (month + 2, day - end_ + 1)
    else (month + 1, day - time_daysBefore month + 1).

(** The day of the year of a date, counted from 0, as [time.Date] adds
    it up. *)
Definition day_of_year (leap : bool) (month day : Z) : Z :=
  time_daysBefore (month - 1)
  + (if leap && (2 <=? month - 1) then 1 else 0) + (day - 1).
Lemma trailer_length (f : list byte) :
  (128 <= length f)%nat -> length (trailer f) = 128%nat.
Proof. intros H. unfold trailer. rewrite length_drop. lia. Qed.

(** Seeking 128 bytes back from the end and reading 128 bytes yields the
    trailer, in full. *)
Lemma os_Seek_end (path : string) (f : list byte) :
  (128 <= length f)%nat ->
  os_Seek {| name := path; contents := f; offset := 0 |} (-128) 2
  = ({| name := path; contents := f; offset := Z.of_nat (length f) - 128 |},
     Z.of_nat (length f) - 128, None).
Proof.
  intros H. unfold os_Seek. cbn [name contents offset].
  change (2 =? 0) with false. change (2 =? 1) with false. cbv iota.
  replace (Z.of_nat (length f) + -128) with (Z.of_nat (length f) - 128) by lia.
  destruct (Z.ltb_spec (Z.of_nat (length f) - 128) 0); [lia | reflexivity].
Qed.

Lemma os_Read_trailer (path : string) (f : list byte) :
  (128 <= length f)%nat ->
  exists f',
    os_Read {| name := path; contents := f;
               offset := Z.of_nat (length f) - 128 |}
            (replicate 128 x00)
    = (f', trailer f, 128, None).
Proof.
  intros H. unfold os_Read. cbn [name contents offset].
  replace (Z.to_nat (Z.of_nat (length f) - 128)) with (length f - 128)%nat by lia.
  fold (trailer f).
  pose proof (trailer_length f H) as Hlen.
  change (replicate 128 x00) with (x00 :: replicate 127 x00) at 1.
  cbv iota.
  destruct (trailer f) as [|c t] eqn:Et; [discriminate Hlen|].
  rewrite length_replicate.
  rewrite take_ge by lia.
  rewrite Hlen.
  rewrite drop_ge by (rewrite length_replicate; lia).
  rewrite app_nil_r.
  eexists. reflexivity.
Qed.

(** [Parse] on an existing file, outcome by outcome. *)
Lemma Parse_found (fs : gmap string (list byte)) (filename : string)
    (f : list byte) :
  fs !! filename = Some f ->
  Parse fs filename =
    if Z.of_nat (length f) <? 129
    then (None, Some (errors_New "File too short"))
    else if bytes_Equal (slice 0 5 (trailer f)) SAUCEID
    then (Some (record_of (trailer f)), None)
    else (None, Some (errors_New "No SAUCE record")).
Proof.
  intros Hf. unfold Parse, os_Open. rewrite Hf.
  unfold os_Stat_Size. cbn [contents].
  destruct (Z.ltb_spec (Z.of_nat (length f)) 129) as [Hlt|Hge]; [reflexivity|].
  assert (128 <= length f)%nat as H128 by lia.
  rewrite (os_Seek_end filename f H128).
  destruct (os_Read_trailer filename f H128) as [f' ->].
  cbn [Z.eqb Pos.eqb negb].
  destruct (bytes_Equal (slice 0 5 (trailer f)) SAUCEID); reflexivity.
Qed.

Lemma Parse_missing (fs : gmap string (list byte)) (filename : string) :
  fs !! filename = None ->
  Parse fs filename
  = (None, Some (os_PathError "open" filename "no such file or directory")).
Proof. intros Hf. unfold Parse, os_Open. rewrite Hf. reflexivity. Qed.

(** A successful decode determines the file, its size, its signature and
    the record. *)
Lemma Parse_Some_inv (fs : gmap string (list byte)) (filename : string)
    (r : SAUCE) (e : option error) :
  Parse fs filename = (Some r, e) ->
  exists f, fs !! filename = Some f /\ (129 <= length f)%nat
            /\ slice 0 5 (trailer f) = SAUCEID
            /\ r = record_of (trailer f) /\ e = None.
Proof.
  intros HP. destruct (fs !! filename) as [f|] eqn:Hf.
  - rewrite (Parse_found _ _ _ Hf) in HP. exists f.
    destruct (Z.ltb_spec (Z.of_nat (length f)) 129); [discriminate|].
    unfold bytes_Equal in HP. case_bool_decide; [|discriminate].
    inversion HP; subst. repeat split; [lia | assumption].
  - rewrite (Parse_missing _ _ Hf) in HP. discriminate.
Qed.

(** ** Bytes and slices *)

Lemma byte_Z_range (c : byte) : 0 <= byte_Z c < 256.
Proof. unfold byte_Z. pose proof (Byte.to_N_bounded c). lia. Qed.

Lemma index_slice (lo hi i : nat) (b : list byte) :
  (i < hi - lo)%nat -> index (slice lo hi b) i = index b (lo + i).
Proof.
  intros H. unfold index, slice. rewrite !nth_lookup.
  rewrite lookup_take_lt by assumption. rewrite lookup_drop. reflexivity.
Qed.

Lemma length_slice (lo hi : nat) (b : list byte) :
  (hi <= length b)%nat -> length (slice lo hi b) = (hi - lo)%nat.
Proof. intros H. unfold slice. rewrite length_take, length_drop. lia. Qed.

(** The top byte of a little-endian 32-bit word is its fourth byte. *)
Lemma Uint32_top_byte (b : list byte) :
  binary_LittleEndian_Uint32 b / 2 ^ 24 = byte_Z (index b 3).
Proof.
  unfold binary_LittleEndian_Uint32.
  pose proof (byte_Z_range (index b 0)).
  pose proof (byte_Z_range (index b 1)).
  pose proof (byte_Z_range (index b 2)).
  pose proof (byte_Z_range (index b 3)).
  rewrite <- Z.shiftr_div_pow2 by lia.
  rewrite !Z.shiftr_lor.
  rewrite (Z.shiftr_shiftl_r _ 8 24), (Z.shiftr_shiftl_r _ 16 24) by lia.
  rewrite (Z.shiftr_shiftl_l _ 24 24) by lia.
  rewrite !Z.shiftr_div_pow2 by lia.
  change (24 - 24) with 0. change (24 - 16) with 8. change (24 - 8) with 16.
  rewrite Z.shiftl_0_r.
  rewrite !Z.div_small by lia.
  reflexivity.
Qed.

(** ** Trimming *)

Lemma utf8_DecodeRuneInString_ascii (c : byte) (t : list byte) :
  is_ascii c -> utf8_DecodeRuneInString (c :: t) = (byte_Z c, 1%nat).
Proof.
  unfold is_ascii. intros H. unfold utf8_DecodeRuneInString, utf8_RuneSelf.
  destruct (Z.ltb_spec (byte_Z c) 128); [reflexivity | lia].
Qed.

Lemma utf8_DecodeLastRuneInString_ascii (l : list byte) (c : byte) :
  is_ascii c -> utf8_DecodeLastRuneInString (l ++ [c]) = (byte_Z c, 1%nat).
Proof.
  unfold is_ascii. intros H. unfold utf8_DecodeLastRuneInString.
  rewrite length_app. cbn [length].
  replace (length l + 1)%nat with (S (length l)) by lia. cbv iota beta.
  assert (index (l ++ [c]) (length l) = c) as ->.
  { unfold index. rewrite app_nth2 by lia. rewrite Nat.sub_diag. reflexivity. }
  unfold utf8_RuneSelf.
  destruct (Z.ltb_spec (byte_Z c) 128); [reflexivity | lia].
Qed.

Lemma drop_while_ascii (p : byte -> bool) (s : list byte) :
  Forall is_ascii s -> Forall is_ascii (drop_while p s).
Proof.
  induction 1 as [|c t Hc Ht IH]; cbn [drop_while]; [constructor|].
  destruct (p c); [exact IH | constructor; assumption].
Qed.

Section TrimFunc.

(** Trimming by a predicate [f] on runes, on ASCII text: a byte is a rune
    and the scan is a scan of bytes. *)
Variable f : Z -> bool.

Lemma strings_TrimLeftFunc_ascii (s : list byte) :
  Forall is_ascii s ->
  strings_TrimLeftFunc s f = drop_while (fun c => f (byte_Z c)) s.
Proof.
  unfold strings_TrimLeftFunc.
  induction 1 as [|c t Hc Ht IH]; [reflexivity|].
  cbn [strings_TrimLeftFunc_loop drop_while].
  rewrite (utf8_DecodeRuneInString_ascii c t Hc).
  destruct (f (byte_Z c)); [exact IH | reflexivity].
Qed.

Lemma strings_TrimRightFunc_loop_ascii (l : list byte) :
  Forall is_ascii l ->
  forall fuel, (length l <= fuel)%nat ->
  strings_TrimRightFunc_loop f fuel (rev l)
  = rev (drop_while (fun c => f (byte_Z c)) l).
Proof.
  induction 1 as [|c t Hc Ht IH]; intros fuel Hfuel.
  - destruct fuel; reflexivity.
  - cbn [length] in Hfuel. destruct fuel as [|k]; [lia|].
    cbn [strings_TrimRightFunc_loop rev drop_while].
    destruct (rev t ++ [c]) as [|x y] eqn:E.
    { apply (f_equal (@length byte)) in E.
      rewrite length_app in E. cbn in E. lia. }
    rewrite <- E.
    rewrite (utf8_DecodeLastRuneInString_ascii (rev t) c Hc).
    destruct (f (byte_Z c)); [|reflexivity].
    rewrite length_app. cbn [length].
    replace (length (rev t) + 1 - 1)%nat with (length (rev t)) by lia.
    rewrite take_app_length. apply IH. lia.
Qed.

Lemma strings_TrimRightFunc_ascii (s : list byte) :
  Forall is_ascii s ->
  strings_TrimRightFunc s f
  = rev (drop_while (fun c => f (byte_Z c)) (rev s)).
Proof.
  intros H. unfold strings_TrimRightFunc.
  rewrite <- (rev_involutive s) at 2.
  rewrite <- (length_rev s).
  apply strings_TrimRightFunc_loop_ascii; [|lia].
  apply Forall_rev. exact H.
Qed.

End TrimFunc.

Lemma drop_while_ext (p q : byte -> bool) (s : list byte) :
  Forall (fun c => p c = q c) s -> drop_while p s = drop_while q s.
Proof.
  induction 1 as [|c t Hc Ht IH]; [reflexivity|].
  cbn [drop_while]. rewrite Hc, IH. reflexivity.
Qed.

Lemma unicode_IsSpace_ascii (c : byte) :
  is_ascii c -> unicode_IsSpace (byte_Z c) = ascii_space c.
Proof.
  unfold is_ascii, unicode_IsSpace, ascii_space. intros H.
  destruct (Z.leb_spec (byte_Z c) 255); [|lia].
  destruct (Z.eqb_spec (byte_Z c) 133); [lia|].
  destruct (Z.eqb_spec (byte_Z c) 160); [lia|].
  rewrite !orb_false_r. reflexivity.
Qed.

(** On ASCII text [strings.TrimSpace] removes the leading and trailing
    tabs, line feeds, vertical tabs, form feeds, carriage returns and
    spaces, and nothing else. *)
Lemma strings_TrimSpace_ascii (field : list byte) :
  Forall is_ascii field ->
  strings_TrimSpace (string_of_list_byte field)
  = string_of_list_byte (trim_bytes ascii_space field).
Proof.
  intros H. unfold strings_TrimSpace, trim_bytes.
  rewrite list_byte_of_string_of_list_byte.
  rewrite (strings_TrimLeftFunc_ascii _ _ H).
  rewrite strings_TrimRightFunc_ascii by (apply drop_while_ascii; exact H).
  assert (forall l, Forall is_ascii l ->
            drop_while (fun c => unicode_IsSpace (byte_Z c)) l
            = drop_while ascii_space l) as Hext.
  { intros l Hl. apply drop_while_ext.
    eapply Forall_impl; [exact Hl|]. exact unicode_IsSpace_ascii. }
  rewrite (Hext _ H).
  rewrite Hext by (apply Forall_rev, drop_while_ascii; exact H).
  reflexivity.
Qed.

Lemma trimmed_field_intro (field : list byte) :
  trimmed_field field (strings_TrimSpace (string_of_list_byte field)).
Proof. split; [reflexivity | apply strings_TrimSpace_ascii]. Qed.

(** ** The date *)

Lemma substring_string_of_list_byte (l : list byte) (lo n : nat) :
  String.substring lo n (string_of_list_byte l)
  = string_of_list_byte (take n (drop lo l)).
Proof.
  revert lo n. induction l as [|c t IH]; intros lo n.
  - destruct lo, n; reflexivity.
  - destruct lo as [|lo].
    + destruct n as [|n]; [reflexivity|].
      cbn [drop take]. change (string_of_list_byte (c :: t))
        with (String (ascii_of_byte c) (string_of_list_byte t)).
      change (string_of_list_byte (c :: take n t))
        with (String (ascii_of_byte c) (string_of_list_byte (take n t))).
      cbn [String.substring]. f_equal. exact (IH 0%nat n).
    + change (string_of_list_byte (c :: t))
        with (String (ascii_of_byte c) (string_of_list_byte t)).
      cbn [String.substring drop]. apply IH.
Qed.

Lemma slice_slice (lo hi i j : nat) (b : list byte) :
  (i <= j)%nat -> (j <= hi - lo)%nat ->
  slice i j (slice lo hi b) = slice (lo + i) (lo + j) b.
Proof.
  intros Hij Hj. unfold slice. apply list_eq. intros k.
  replace (lo + j - (lo + i))%nat with (j - i)%nat by lia.
  destruct (Nat.lt_ge_cases k (j - i)) as [Hk|Hk].
  - rewrite !lookup_take_lt by lia. rewrite !lookup_drop.
    rewrite lookup_take_lt by lia. rewrite lookup_drop.
    f_equal. lia.
  - rewrite !lookup_take_ge by lia. reflexivity.
Qed.

(** A failed conversion of a short string yields zero. *)
Lemma strconv_Atoi_error_zero (s : string) (n : Z) (e : strconv_NumError) :
  (length (list_byte_of_string s) < 19)%nat ->
  strconv_Atoi s = (n, Some e) -> n = 0.
Proof.
  intros Hlen. unfold strconv_Atoi, strconv_ParseInt.
  destruct (list_byte_of_string s) as [|c t] eqn:Es.
  - cbn. intros [= <- _]. reflexivity.
  - cbn [length] in *.
    replace ((0 <? S (length t))%nat && (S (length t) <? 19)%nat) with true.
    2:{ symmetry. apply andb_true_iff. split; apply Nat.ltb_lt; lia. }
    destruct (bool_decide (c = "-"%byte) || bool_decide (c = "+"%byte)).
    + destruct t as [|c' t']; [intros [= <- _]; reflexivity|].
      destruct (strconv_digits (c' :: t') 0); intros [= <- ?]; try discriminate.
      reflexivity.
    + destruct (strconv_digits (c :: t) 0); intros [= <- ?]; try discriminate.
      reflexivity.
Qed.

Lemma date_field_fst (lo hi : nat) (b : list byte) :
  (hi <= length b)%nat -> (hi - lo < 19)%nat ->
  date_field lo hi b
  = fst (strconv_Atoi (string_of_list_byte (slice lo hi b))).
Proof.
  intros Hhi Hlen. unfold date_field.
  destruct (strconv_Atoi _) as [n [e|]] eqn:E; [|reflexivity].
  symmetry. apply (strconv_Atoi_error_zero _ _ _) in E; [exact E|].
  rewrite list_byte_of_string_of_list_byte, length_slice; lia.
Qed.

Lemma parseDate_fields (r : SAUCE) (b : list byte) :
  length b = 128%nat ->
  parseDate r (string_of_list_byte (slice 82 90 b))
  = time_Date (date_field 82 86 b) (date_field 86 88 b) (date_field 88 90 b).
Proof.
  intros Hb. unfold parseDate, str_slice.
  rewrite !substring_string_of_list_byte.
  change (take (4 - 0) (drop 0 (slice 82 90 b))) with (slice 0 4 (slice 82 90 b)).
  change (take (6 - 4) (drop 4 (slice 82 90 b))) with (slice 4 6 (slice 82 90 b)).
  change (take (8 - 6) (drop 6 (slice 82 90 b))) with (slice 6 8 (slice 82 90 b)).
  rewrite !slice_slice by (cbn; lia).
  cbn [Nat.add].
  rewrite !date_field_fst by (cbn; lia).
  destruct (strconv_Atoi (string_of_list_byte (slice 82 86 b))) as [y ?].
  destruct (strconv_Atoi (string_of_list_byte (slice 86 88 b))) as [m ?].
  destruct (strconv_Atoi (string_of_list_byte (slice 88 90 b))) as [d ?].
  reflexivity.
Qed.

(** ** The report *)


Lemma Dump_size_characters (r : SAUCE) :
  DataType r = 1 ->
  FileType r ∈ [0; 1; 2; 4; 5; 8] ->
  length (Dump r) = 11%nat
  /\ Dump r !! 10%nat
     = Some ("size....: "
             +:+ fmt_d (if TInfo_at r 0 =? 0 then 80 else TInfo_at r 0)
             +:+ " x " +:+ fmt_d (TInfo_at r 1) +:+ " characters" +:+ LF).
Proof.
  intros Hd Hf. unfold Dump. rewrite Hd.
  destruct (SAUCEFileType !! 1);
    repeat (apply elem_of_cons in Hf as [-> | Hf]); try (split; reflexivity);
    exfalso; exact (not_elem_of_nil _ Hf).
Qed.

Lemma Dump_size_rip (r : SAUCE) :
  DataType r = 1 ->
  FileType r = 3 ->
  length (Dump r) = 11%nat
  /\ Dump r !! 10%nat
     = Some ("size....: " +:+ fmt_d (TInfo_at r 0) +:+ " x "
             +:+ fmt_d (TInfo_at r 1) +:+ " pixels" +:+ LF).
Proof.
  intros Hd Hf. unfold Dump. rewrite Hd, Hf.
  destruct (SAUCEFileType !! 1); split; reflexivity.
Qed.

(** The data types that have a table of file types. *)
Lemma SAUCEFileType_dom : dom SAUCEFileType = ({[ 1; 2; 3; 4; 7 ]} : gset Z).
Proof.
  unfold SAUCEFileType. rewrite dom_list_to_map_L. cbn [fmap list_fmap fst].
  unfold DATA_TYPE_CHARACTER, DATA_TYPE_BITMAP, DATA_TYPE_VECTOR,
    DATA_TYPE_AUDIO, DATA_TYPE_ARCHIVE.
  set_solver.
Qed.

Lemma SAUCEFileType_None (dt : Z) :
  dt ∉ [1; 2; 3; 4; 7] -> SAUCEFileType !! dt = None.
Proof.
  intros H. apply not_elem_of_dom. rewrite SAUCEFileType_dom.
  set_unfold. tauto.
Qed.

Lemma Dump_file_type_bare (r : SAUCE) :
  SAUCEFileType !! DataType r = None ->
  Dump r !! 8%nat = Some ("filetype: " +:+ fmt_d (FileType r) +:+ LF).
Proof. intros H. unfold Dump. rewrite H. reflexivity. Qed.

(** ** The samples, run *)

Example strings_TrimSpace_padding :
  strings_TrimSpace "  Title   " = "Title".
Proof. reflexivity. Qed.

Example strings_TrimSpace_keeps_NUL :
  strings_TrimSpace (nul_padded 8 "Title") = nul_padded 8 "Title".
Proof. reflexivity. Qed.

(** U+00A0 and U+3000, encoded in UTF-8, are white space; a lone byte
    0xA0 is not. *)
Example strings_TrimSpace_unicode :
  strings_TrimSpace
    (string_of_list_byte [xc2; xa0; "A"%byte; xe3; x80; x80])
  = "A"
  /\ strings_TrimSpace (string_of_list_byte [xa0; "A"%byte])
     = string_of_list_byte [xa0; "A"%byte].
Proof. split; reflexivity. Qed.

Example strconv_Atoi_samples :
  strconv_Atoi "1997" = (1997, None)
  /\ strconv_Atoi "04" = (4, None)
  /\ strconv_Atoi "-1" = (-1, None)
  /\ fst (strconv_Atoi "  ") = 0
  /\ fst (strconv_Atoi "1a") = 0.
Proof. repeat split; reflexivity. Qed.

Example time_Date_samples :
  time_Time_String (time_Date 1997 4 1) = "1997-04-01 00:00:00 +0000 UTC"
  /\ time_Time_String (time_Date 1997 0 1) = "1996-12-01 00:00:00 +0000 UTC"
  /\ time_Time_String (time_Date 2000 2 30) = "2000-03-01 00:00:00 +0000 UTC"
  /\ time_Time_String (time_Date 0 0 0) = "-0001-11-30 00:00:00 +0000 UTC".
Proof. repeat split; vm_compute; reflexivity. Qed.

Example Dump_ansi_file :
  Dump (record_of (trailer ansi_file))
  = [ "id......: SAUCE" +:+ LF;
      "version.: 00" +:+ LF;
      "title...: Title" +:+ LF;
      "author..: Author" +:+ LF;
      "group...: Group" +:+ LF;
      "date....: 1997-04-01 00:00:00 +0000 UTC" +:+ LF;
      "filesize: 16777216" +:+ LF;
      "datatype: 1 (Character)" +:+ LF;
      "filetype: 1 (ANSi)" +:+ LF;
      "tinfo...: 80, 25, 0, 0" +:+ LF;
      "size....: 80 x 25 characters" +:+ LF ].
Proof. vm_compute. reflexivity. Qed.

Example main_samples :
  main sample_fs ["short.txt"; "absent.ans"; "rip0.rip"]
  = [ "short.txt: error File too short" +:+ LF;
      "absent.ans: error open absent.ans: no such file or directory" +:+ LF;
      "rip0.rip" +:+ LF ]
    ++ Dump (record_of (trailer rip_zero_file))
  /\ Dump (record_of (trailer rip_zero_file)) !! 10%nat
     = Some ("size....: 0 x 200 pixels" +:+ LF).
Proof. split; vm_compute; reflexivity. Qed.

(** * The claims *)

(** [Parse] never reports a missing record as [(nil, nil)]: the branch of
    [main] that prints "no SAUCE record" is never taken. *)
Lemma Parse_never_nil_nil (fs : gmap string (list byte)) (filename : string) :
  Parse fs filename <> (None, None).
Proof.
  destruct (fs !! filename) as [f|] eqn:Hf.
  - rewrite (Parse_found _ _ _ Hf).
    destruct (_ <? _); [discriminate|].
    destruct (bytes_Equal _ _); discriminate.
  - rewrite (Parse_missing _ _ Hf). discriminate.
Qed.

(** C1, as the code has it: for a file of at least 129 bytes whose last
    128 bytes do not start with the signature, [Parse] returns no record
    and the error "No SAUCE record". *)
Theorem C1_no_signature_is_an_error
    (fs : gmap string (list byte)) (filename : string) (f : list byte) :
  fs !! filename = Some f ->
  (129 <= length f)%nat ->
  slice 0 5 (trailer f) <> SAUCEID ->
  Parse fs filename = (None, Some (errors_New "No SAUCE record")).
Proof.
  intros Hf Hlen Hsig. rewrite (Parse_found _ _ _ Hf).
  destruct (Z.ltb_spec (Z.of_nat (length f)) 129); [lia|].
  unfold bytes_Equal. case_bool_decide; [contradiction | reflexivity].
Qed.

(** C2: for a decoded record of data type Character (1) and file type
    0, 1, 2, 4, 5 or 8, the report ends with the size line
    "w x h characters", where h is type_info[1] as decoded and w is
    type_info[0], except that 80 is shown when type_info[0] is 0. *)
Theorem C2_size_in_characters
    (fs : gmap string (list byte)) (filename : string) (r : SAUCE) :
  Parse fs filename = (Some r, None) ->
  DataType r = 1 ->
  FileType r ∈ [0; 1; 2; 4; 5; 8] ->
  length (Dump r) = 11%nat
  /\ Dump r !! 10%nat
     = Some ("size....: "
             +:+ fmt_d (if TInfo_at r 0 =? 0 then 80 else TInfo_at r 0)
             +:+ " x " +:+ fmt_d (TInfo_at r 1) +:+ " characters" +:+ LF)
  /\ (TInfo_at r 0 = 0 ->
      Dump r !! 10%nat
      = Some ("size....: 80 x " +:+ fmt_d (TInfo_at r 1)
              +:+ " characters" +:+ LF))
  /\ exists f, fs !! filename = Some f
       /\ TInfo_at r 0 = binary_LittleEndian_Uint16 (slice 96 98 (trailer f))
       /\ TInfo_at r 1
          = binary_LittleEndian_Uint16 (slice 98 100 (trailer f)).
Proof.
  intros decoded Hd Hf.
  destruct (Dump_size_characters r Hd Hf) as [Hlen Hline].
  split; [exact Hlen|]. split; [exact Hline|]. split.
  - intros Hw. rewrite Hline, Hw. reflexivity.
  - destruct (Parse_Some_inv _ _ _ _ decoded) as (f & Hfs & _ & _ & -> & _).
    exists f. repeat split; [exact Hfs].
Qed.

(** C3, as the code has it: the version of every decoded record is the
    constant [SAUCEVersion], the bytes (0, 0) that [New] puts there;
    [Parse] never reads the trailer bytes at offsets 5 and 6. *)
Theorem C3_version_is_constant
    (fs : gmap string (list byte)) (filename : string) (r : SAUCE) :
  Parse fs filename = (Some r, None) ->
  Version r = SAUCEVersion /\ Version r = [x00; x00].
Proof.
  intros decoded.
  destruct (Parse_Some_inv _ _ _ _ decoded) as (f & _ & _ & _ & -> & _).
  split; reflexivity.
Qed.

(** C4, as the code has it: the comment count and the flags of every
    decoded record are 0 and its reserved bytes are 22 zero bytes, the
    zero values left by [New]; [Parse] never reads the trailer bytes at
    offsets 104..127. *)
Theorem C4_tail_fields_are_zero
    (fs : gmap string (list byte)) (filename : string) (r : SAUCE) :
  Parse fs filename = (Some r, None) ->
  Comments r = 0 /\ TFlags r = 0 /\ TInfos r = replicate 22 x00.
Proof.
  intros decoded.
  destruct (Parse_Some_inv _ _ _ _ decoded) as (f & _ & _ & _ & -> & _).
  repeat split; reflexivity.
Qed.

(** C5: for a decoded record of data type Character (1) and file type 3
    (RIP script), the report ends with the size line "w x h pixels",
    where w and h are type_info[0] and type_info[1] as decoded; a width
    of 0 is shown as 0. *)
Theorem C5_size_in_pixels_for_rip
    (fs : gmap string (list byte)) (filename : string) (r : SAUCE) :
  Parse fs filename = (Some r, None) ->
  DataType r = 1 ->
  FileType r = 3 ->
  length (Dump r) = 11%nat
  /\ Dump r !! 10%nat
     = Some ("size....: " +:+ fmt_d (TInfo_at r 0) +:+ " x "
             +:+ fmt_d (TInfo_at r 1) +:+ " pixels" +:+ LF)
  /\ (TInfo_at r 0 = 0 ->
      Dump r !! 10%nat
      = Some ("size....: 0 x " +:+ fmt_d (TInfo_at r 1)
              +:+ " pixels" +:+ LF))
  /\ exists f, fs !! filename = Some f
       /\ TInfo_at r 0 = binary_LittleEndian_Uint16 (slice 96 98 (trailer f))
       /\ TInfo_at r 1
          = binary_LittleEndian_Uint16 (slice 98 100 (trailer f)).
Proof.
  intros decoded Hd Hf.
  destruct (Dump_size_rip r Hd Hf) as [Hlen Hline].
  split; [exact Hlen|]. split; [exact Hline|]. split.
  - intros Hw. rewrite Hline, Hw. reflexivity.
  - destruct (Parse_Some_inv _ _ _ _ decoded) as (f & Hfs & _ & _ & -> & _).
    exists f. repeat split; [exact Hfs].
Qed.

(** C6: [Parse] fails with "File too short" exactly when the file exists
    and has fewer than 129 bytes; a file of exactly 129 bytes whose last
    128 bytes start with the signature is decoded. *)
Theorem C6_too_short_iff
    (fs : gmap string (list byte)) (filename : string) :
  (Parse fs filename = (None, Some (errors_New "File too short"))
   <-> exists f, fs !! filename = Some f /\ (length f < 129)%nat)
  /\ (forall f, fs !! filename = Some f ->
      length f = 129%nat -> slice 0 5 (trailer f) = SAUCEID ->
      exists r, Parse fs filename = (Some r, None)).
Proof.
  split.
  - destruct (fs !! filename) as [f|] eqn:Hf.
    + rewrite (Parse_found _ _ _ Hf).
      destruct (Z.ltb_spec (Z.of_nat (length f)) 129) as [Hlt|Hge].
      * split; [intros _; exists f; split; [reflexivity | lia] | reflexivity].
      * split.
        -- destruct (bytes_Equal _ _); discriminate.
        -- intros (f' & [= <-] & Hlt). lia.
    + rewrite (Parse_missing _ _ Hf). split; [discriminate|].
      intros (f & Hf' & _). discriminate.
  - intros f Hf Hlen Hsig. rewrite (Parse_found _ _ _ Hf).
    destruct (Z.ltb_spec (Z.of_nat (length f)) 129); [lia|].
    unfold bytes_Equal. rewrite bool_decide_eq_true_2 by assumption.
    eexists. reflexivity.
Qed.

(** C7: whatever the eight bytes at trailer offsets 82..89 are, a file of
    at least 129 bytes with the signature is decoded without error, and
    the date of the record is built from the three sub-fields of 4, 2 and
    2 bytes, each the integer it spells, or zero when it spells none. *)
Theorem C7_date_is_lenient
    (fs : gmap string (list byte)) (filename : string) (f : list byte) :
  fs !! filename = Some f ->
  (129 <= length f)%nat ->
  slice 0 5 (trailer f) = SAUCEID ->
  exists r, Parse fs filename = (Some r, None)
    /\ Date r = time_Date (date_field 82 86 (trailer f))
                          (date_field 86 88 (trailer f))
                          (date_field 88 90 (trailer f)).
Proof.
  intros Hf Hlen Hsig. rewrite (Parse_found _ _ _ Hf).
  destruct (Z.ltb_spec (Z.of_nat (length f)) 129); [lia|].
  unfold bytes_Equal. rewrite bool_decide_eq_true_2 by assumption.
  eexists. split; [reflexivity|].
  cbn [Date record_of]. apply parseDate_fields, trailer_length. lia.
Qed.

(** C8, as the code has it: the title of a decoded record comes from
    the 34 bytes at trailer offsets 7..40, the author from the 20 bytes
    at 41..60 and the group from the 20 bytes at 61..80, each trimmed by
    [strings.TrimSpace]: Unicode white space is removed at both ends,
    which on ASCII bytes means tab, line feed, vertical tab, form feed,
    carriage return and space; NUL and the other control characters
    stay. *)
Theorem C8_text_fields
    (fs : gmap string (list byte)) (filename : string) (r : SAUCE) :
  Parse fs filename = (Some r, None) ->
  exists f, fs !! filename = Some f
    /\ length (slice 7 41 (trailer f)) = 34%nat
    /\ length (slice 41 61 (trailer f)) = 20%nat
    /\ length (slice 61 81 (trailer f)) = 20%nat
    /\ trimmed_field (slice 7 41 (trailer f)) (Title r)
    /\ trimmed_field (slice 41 61 (trailer f)) (Author r)
    /\ trimmed_field (slice 61 81 (trailer f)) (Group r).
Proof.
  intros decoded.
  destruct (Parse_Some_inv _ _ _ _ decoded) as (f & Hfs & Hlen & _ & -> & _).
  assert (length (trailer f) = 128%nat) as Hb by (apply trailer_length; lia).
  exists f. split; [exact Hfs|].
  rewrite !length_slice by lia.
  repeat split; try reflexivity; apply strings_TrimSpace_ascii; assumption.
Qed.

(** C9: only the data types 1, 2, 3, 4 and 7 have a table of file types,
    so [FileTypeString] gives a name for no other data type; for the data
    types 0, 5, 6 and 8 there is no table and the file-type line of the
    report shows the code alone. *)
Theorem C9_file_type_tables (r : SAUCE) :
  dom SAUCEFileType = ({[ 1; 2; 3; 4; 7 ]} : gset Z)
  /\ (FileTypeString r <> "" -> DataType r ∈ [1; 2; 3; 4; 7])
  /\ (DataType r ∈ [0; 5; 6; 8] ->
      SAUCEFileType !! DataType r = None
      /\ FileTypeString r = ""
      /\ Dump r !! 8%nat = Some ("filetype: " +:+ fmt_d (FileType r) +:+ LF)).
Proof.
  split; [exact SAUCEFileType_dom|]. split.
  - intros Hname.
    destruct (decide (DataType r ∈ [1; 2; 3; 4; 7])) as [Hin|Hout];
      [exact Hin|].
    exfalso. apply Hname. unfold FileTypeString.
    rewrite (SAUCEFileType_None _ Hout). reflexivity.
  - intros Hin.
    assert (SAUCEFileType !! DataType r = None) as Hnone.
    { apply SAUCEFileType_None. intros Hbad.
      repeat (apply elem_of_cons in Hin as [Heq | Hin];
              [rewrite Heq in Hbad; set_unfold in Hbad; lia|]).
      exact (not_elem_of_nil _ Hin). }
    split; [exact Hnone|]. split.
    + unfold FileTypeString. rewrite Hnone. reflexivity.
    + apply Dump_file_type_bare, Hnone.
Qed.

(** C10: in every decoded record the data type is the file size divided
    by 2^24: the data-type byte, read at trailer offset 94, is also the
    most significant byte of the little-endian file size read at offsets
    91..94. *)
Theorem C10_data_type_aliases_file_size
    (fs : gmap string (list byte)) (filename : string) (r : SAUCE) :
  Parse fs filename = (Some r, None) ->
  DataType r = FileSize r / 2 ^ 24
  /\ exists f, fs !! filename = Some f
       /\ DataType r = byte_Z (index (trailer f) 94)
       /\ FileSize r = binary_LittleEndian_Uint32 (slice 91 95 (trailer f)).
Proof.
  intros decoded.
  destruct (Parse_Some_inv _ _ _ _ decoded) as (f & Hf & Hlen & _ & -> & _).
  cbn [DataType FileSize record_of].
  split; [|exists f; auto].
  rewrite Uint32_top_byte, index_slice by lia. reflexivity.
Qed.

(** * Witnesses and counterexamples *)

(** Every sample is decoded to the record of its trailer. *)
Ltac decoded_sample := vm_compute; reflexivity.

Lemma C1_witness :
  sample_fs !! "plain.txt" = Some plain_file
  /\ (129 <= length plain_file)%nat
  /\ slice 0 5 (trailer plain_file) <> SAUCEID
  /\ Parse sample_fs "plain.txt" = (None, Some (errors_New "No SAUCE record")).
Proof.
  assert (H1 : sample_fs !! "plain.txt" = Some plain_file) by decoded_sample.
  assert (H2 : (129 <= length plain_file)%nat) by (vm_compute; lia).
  assert (H3 : slice 0 5 (trailer plain_file) <> SAUCEID)
    by (vm_compute; discriminate).
  refine (conj H1 (conj H2 (conj H3 _))).
  exact (C1_no_signature_is_an_error sample_fs "plain.txt" plain_file H1 H2 H3).
Defined.

(** C1 as stated fails: [plain_file] has 200 bytes and no signature, and
    [Parse] returns an error, not the pair [(nil, nil)] for which [main]
    would print "no SAUCE record". *)
Lemma C1_counterexample :
  (129 <= length plain_file)%nat
  /\ slice 0 5 (trailer plain_file) <> SAUCEID
  /\ Parse sample_fs "plain.txt" <> (None, None)
  /\ snd (Parse sample_fs "plain.txt") = Some (errors_New "No SAUCE record")
  /\ main sample_fs ["plain.txt"] = ["plain.txt: error No SAUCE record" +:+ LF].
Proof.
  split; [vm_compute; lia|].
  split; [vm_compute; discriminate|].
  split; [vm_compute; discriminate|].
  split; vm_compute; reflexivity.
Qed.

Lemma C2_witness :
  Parse sample_fs "ascii.asc" = (Some (record_of (trailer ascii_file)), None)
  /\ DataType (record_of (trailer ascii_file)) = 1
  /\ FileType (record_of (trailer ascii_file)) ∈ [0; 1; 2; 4; 5; 8]
  /\ TInfo_at (record_of (trailer ascii_file)) 0 = 0
  /\ Dump (record_of (trailer ascii_file)) !! 10%nat
     = Some ("size....: 80 x 25 characters" +:+ LF).
Proof.
  assert (H : Parse sample_fs "ascii.asc"
              = (Some (record_of (trailer ascii_file)), None))
    by decoded_sample.
  assert (Hd : DataType (record_of (trailer ascii_file)) = 1)
    by decoded_sample.
  assert (Hf : FileType (record_of (trailer ascii_file)) ∈ [0; 1; 2; 4; 5; 8])
    by (apply list_elem_of_here).
  assert (Hw : TInfo_at (record_of (trailer ascii_file)) 0 = 0)
    by decoded_sample.
  refine (conj H (conj Hd (conj Hf (conj Hw _)))).
  exact (proj1 (proj2 (proj2
           (C2_size_in_characters sample_fs "ascii.asc" _ H Hd Hf))) Hw).
Defined.

Lemma C3_witness :
  Parse sample_fs "ansi.ans" = (Some (record_of (trailer ansi_file)), None)
  /\ Version (record_of (trailer ansi_file)) = SAUCEVersion
  /\ Version (record_of (trailer ansi_file)) = [x00; x00].
Proof.
  assert (H : Parse sample_fs "ansi.ans"
              = (Some (record_of (trailer ansi_file)), None))
    by decoded_sample.
  split; [exact H|].
  exact (C3_version_is_constant sample_fs "ansi.ans" _ H).
Defined.

(** C3 as stated fails: the trailer of [ansi_file] carries the version
    "00", the bytes 0x30 0x30, and the decoded version is (0, 0). *)
Lemma C3_counterexample :
  exists r, Parse sample_fs "ansi.ans" = (Some r, None)
            /\ slice 5 7 (trailer ansi_file) = ["0"%byte; "0"%byte]
            /\ Version r <> slice 5 7 (trailer ansi_file).
Proof.
  eexists. split; [decoded_sample|].
  split; [decoded_sample|].
  vm_compute. discriminate.
Qed.

Lemma C4_witness :
  Parse sample_fs "tagged.ans" = (Some (record_of (trailer tagged_file)), None)
  /\ Comments (record_of (trailer tagged_file)) = 0
  /\ TFlags (record_of (trailer tagged_file)) = 0
  /\ TInfos (record_of (trailer tagged_file)) = replicate 22 x00.
Proof.
  assert (H : Parse sample_fs "tagged.ans"
              = (Some (record_of (trailer tagged_file)), None))
    by decoded_sample.
  split; [exact H|].
  exact (C4_tail_fields_are_zero sample_fs "tagged.ans" _ H).
Defined.

(** C4 as stated fails: the trailer of [tagged_file] holds the comment
    count 2, the flags 1 and the font name "IBM VGA", and the decoded
    record holds zeros. *)
Lemma C4_counterexample :
  exists r, Parse sample_fs "tagged.ans" = (Some r, None)
    /\ byte_Z (index (trailer tagged_file) 104) = 2
    /\ Comments r <> byte_Z (index (trailer tagged_file) 104)
    /\ byte_Z (index (trailer tagged_file) 105) = 1
    /\ TFlags r <> byte_Z (index (trailer tagged_file) 105)
    /\ TInfos r <> slice 106 128 (trailer tagged_file).
Proof.
  eexists. split; [decoded_sample|].
  split; [decoded_sample|]. split; [vm_compute; discriminate|].
  split; [decoded_sample|]. split; vm_compute; discriminate.
Qed.

Lemma C5_witness :
  Parse sample_fs "rip.rip" = (Some (record_of (trailer rip_file)), None)
  /\ DataType (record_of (trailer rip_file)) = 1
  /\ FileType (record_of (trailer rip_file)) = 3
  /\ Dump (record_of (trailer rip_file)) !! 10%nat
     = Some ("size....: 320 x 200 pixels" +:+ LF).
Proof.
  assert (H : Parse sample_fs "rip.rip"
              = (Some (record_of (trailer rip_file)), None))
    by decoded_sample.
  assert (Hd : DataType (record_of (trailer rip_file)) = 1) by decoded_sample.
  assert (Hf : FileType (record_of (trailer rip_file)) = 3) by decoded_sample.
  refine (conj H (conj Hd (conj Hf _))).
  exact (proj1 (proj2 (C5_size_in_pixels_for_rip sample_fs "rip.rip" _ H Hd Hf))).
Defined.

Lemma C6_witness :
  sample_fs !! "minimal.ans" = Some minimal_file
  /\ length minimal_file = 129%nat
  /\ slice 0 5 (trailer minimal_file) = SAUCEID
  /\ (exists r, Parse sample_fs "minimal.ans" = (Some r, None))
  /\ sample_fs !! "short.txt" = Some short_file
  /\ (length short_file < 129)%nat
  /\ Parse sample_fs "short.txt" = (None, Some (errors_New "File too short")).
Proof.
  assert (H1 : sample_fs !! "minimal.ans" = Some minimal_file)
    by decoded_sample.
  assert (H2 : length minimal_file = 129%nat) by decoded_sample.
  assert (H3 : slice 0 5 (trailer minimal_file) = SAUCEID) by decoded_sample.
  assert (H4 : sample_fs !! "short.txt" = Some short_file) by decoded_sample.
  assert (H5 : (length short_file < 129)%nat) by (vm_compute; lia).
  refine (conj H1 (conj H2 (conj H3 (conj _ (conj H4 (conj H5 _)))))).
  - exact (proj2 (C6_too_short_iff sample_fs "minimal.ans") _ H1 H2 H3).
  - exact (proj2 (proj1 (C6_too_short_iff sample_fs "short.txt"))
             (ex_intro _ short_file (conj H4 H5))).
Defined.

Lemma C7_witness :
  sample_fs !! "undated.ans" = Some undated_file
  /\ (129 <= length undated_file)%nat
  /\ slice 0 5 (trailer undated_file) = SAUCEID
  /\ date_field 86 88 (trailer undated_file) = 0
  /\ exists r, Parse sample_fs "undated.ans" = (Some r, None)
       /\ Date r = time_Date (date_field 82 86 (trailer undated_file))
                             (date_field 86 88 (trailer undated_file))
                             (date_field 88 90 (trailer undated_file)).
Proof.
  assert (H1 : sample_fs !! "undated.ans" = Some undated_file)
    by decoded_sample.
  assert (H2 : (129 <= length undated_file)%nat) by (vm_compute; lia).
  assert (H3 : slice 0 5 (trailer undated_file) = SAUCEID) by decoded_sample.
  assert (H4 : date_field 86 88 (trailer undated_file) = 0) by decoded_sample.
  refine (conj H1 (conj H2 (conj H3 (conj H4 _)))).
  exact (C7_date_is_lenient sample_fs "undated.ans" undated_file H1 H2 H3).
Defined.

Lemma C8_witness :
  Parse sample_fs "long.ans"
  = (Some (record_of (trailer long_title_file)), None)
  /\ exists f, sample_fs !! "long.ans" = Some f
      /\ length (slice 7 41 (trailer f)) = 34%nat
      /\ length (slice 41 61 (trailer f)) = 20%nat
      /\ length (slice 61 81 (trailer f)) = 20%nat
      /\ trimmed_field (slice 7 41 (trailer f))
           (Title (record_of (trailer long_title_file)))
      /\ trimmed_field (slice 41 61 (trailer f))
           (Author (record_of (trailer long_title_file)))
      /\ trimmed_field (slice 61 81 (trailer f))
           (Group (record_of (trailer long_title_file))).
Proof.
  assert (H : Parse sample_fs "long.ans"
              = (Some (record_of (trailer long_title_file)), None))
    by decoded_sample.
  split; [exact H|].
  exact (C8_text_fields sample_fs "long.ans" _ H).
Defined.

(** C8 as stated fails on [nul_title_file], whose title "Title" is padded
    to 35 bytes with NUL: the decoded title is "Title" followed by 29 NUL
    bytes.  It is not the 35-byte field trimmed of spaces and control
    characters, nor the 34-byte field trimmed that way, nor the 35-byte
    field trimmed by [strings.TrimSpace]. *)
Lemma C8_counterexample :
  exists r, Parse sample_fs "nul.ans" = (Some r, None)
    /\ Title r = nul_padded 34 "Title"
    /\ spec_trim (slice 7 42 (trailer nul_title_file)) = "Title"
    /\ Title r <> spec_trim (slice 7 42 (trailer nul_title_file))
    /\ Title r <> spec_trim (slice 7 41 (trailer nul_title_file))
    /\ Title r
       <> strings_TrimSpace
            (string_of_list_byte (slice 7 42 (trailer nul_title_file))).
Proof.
  eexists. split; [decoded_sample|].
  split; [decoded_sample|]. split; [decoded_sample|].
  repeat split; vm_compute; discriminate.
Qed.

Lemma C9_witness :
  DataType (record_of (trailer bintext_file)) ∈ [0; 5; 6; 8]
  /\ SAUCEFileType !! DataType (record_of (trailer bintext_file)) = None
  /\ FileTypeString (record_of (trailer bintext_file)) = ""
  /\ Dump (record_of (trailer bintext_file)) !! 8%nat
     = Some ("filetype: 80" +:+ LF).
Proof.
  assert (H : DataType (record_of (trailer bintext_file)) ∈ [0; 5; 6; 8])
    by (apply list_elem_of_further, list_elem_of_here).
  split; [exact H|].
  exact (proj2 (proj2 (C9_file_type_tables (record_of (trailer bintext_file)))) H).
Defined.

Lemma C10_witness :
  Parse sample_fs "ansi.ans" = (Some (record_of (trailer ansi_file)), None)
  /\ DataType (record_of (trailer ansi_file))
     = FileSize (record_of (trailer ansi_file)) / 2 ^ 24.
Proof.
  assert (H : Parse sample_fs "ansi.ans"
              = (Some (record_of (trailer ansi_file)), None))
    by decoded_sample.
  split; [exact H|].
  exact (proj1 (C10_data_type_aliases_file_size sample_fs "ansi.ans" _ H)).
Defined.

(** * Further properties of the decoder and the report *)

(** ** The outcomes of [Parse] *)


(** X2: [Parse] looks at nothing but the last 128 bytes: two files that
    end with the same 128 bytes after at least one other byte give the
    same result, whatever precedes those bytes and whatever the names. *)
Theorem Parse_ignores_body
    (fs fs' : gmap string (list byte)) (filename filename' : string)
    (body body' t : list byte) :
  length t = 128%nat ->
  body <> [] -> body' <> [] ->
  fs !! filename = Some (body ++ t) ->
  fs' !! filename' = Some (body' ++ t) ->
  Parse fs filename = Parse fs' filename'.
Proof.
  intros Ht Hb Hb' Hf Hf'.
  assert (forall b : list byte, b <> [] ->
            (Z.of_nat (length (b ++ t)) <? 129) = false
            /\ trailer (b ++ t) = t) as Happ.
  { intros b Hne. rewrite length_app, Ht. split.
    - destruct b; [contradiction|]. cbn [length]. apply Z.ltb_ge. lia.
    - unfold trailer. rewrite length_app, Ht.
      replace (length b + 128 - 128)%nat with (length b) by lia.
      apply drop_app_length. }
  rewrite (Parse_found _ _ _ Hf), (Parse_found _ _ _ Hf').
  destruct (Happ body Hb) as [-> ->]. destruct (Happ body' Hb') as [-> ->].
  reflexivity.
Qed.

(** ** The numeric fields *)

Lemma lor_shiftl_add (a b n : Z) :
  0 <= n -> 0 <= a < 2 ^ n -> Z.lor a (Z.shiftl b n) = a + b * 2 ^ n.
Proof.
  intros Hn Ha.
  assert (Z.land a (Z.shiftl b n) = 0) as Hland.
  { apply Z.bits_inj'. intros i Hi.
    rewrite Z.land_spec, Z.bits_0.
    destruct (Z.lt_ge_cases i n) as [Hlt|Hge].
    - rewrite Z.shiftl_spec_low by assumption. apply andb_false_r.
    - rewrite <- (Z.mod_small a (2 ^ n)) by assumption.
      rewrite Z.mod_pow2_bits_high by lia. reflexivity. }
  rewrite <- Z.lxor_lor by assumption.
  rewrite <- Z.add_nocarry_lxor by assumption.
  rewrite Z.shiftl_mul_pow2 by assumption. reflexivity.
Qed.

Lemma Uint16_arith (b : list byte) :
  binary_LittleEndian_Uint16 b = byte_at b 0 + 256 * byte_at b 1.
Proof.
  unfold binary_LittleEndian_Uint16, byte_at.
  pose proof (byte_Z_range (index b 0)).
  rewrite lor_shiftl_add by lia. lia.
Qed.

Lemma Uint32_arith (b : list byte) :
  binary_LittleEndian_Uint32 b
  = byte_at b 0 + 2 ^ 8 * byte_at b 1 + 2 ^ 16 * byte_at b 2
    + 2 ^ 24 * byte_at b 3.
Proof.
  unfold binary_LittleEndian_Uint32, byte_at.
  pose proof (byte_Z_range (index b 0)).
  pose proof (byte_Z_range (index b 1)).
  pose proof (byte_Z_range (index b 2)).
  rewrite (lor_shiftl_add _ _ 8) by lia.
  rewrite (lor_shiftl_add _ _ 16) by lia.
  rewrite (lor_shiftl_add _ _ 24) by lia.
  lia.
Qed.

Lemma byte_at_slice (lo hi i : nat) (b : list byte) :
  (i < hi - lo)%nat -> byte_at (slice lo hi b) i = byte_at b (lo + i).
Proof. intros H. unfold byte_at. rewrite index_slice by assumption. reflexivity. Qed.

(** X3: the numeric fields of a decoded record, in terms of the bytes of
    the trailer: the file size is the little-endian value of the bytes at
    offsets 91..94, the data type is the byte at 94, the file type the
    byte at 95, and the four type-info words are the little-endian values
    of the byte pairs at 96, 98, 100 and 102. *)
Theorem Parse_numeric_fields
    (fs : gmap string (list byte)) (filename : string) (r : SAUCE) :
  Parse fs filename = (Some r, None) ->
  exists f, fs !! filename = Some f
    /\ FileSize r = byte_at (trailer f) 91 + 2 ^ 8 * byte_at (trailer f) 92
                    + 2 ^ 16 * byte_at (trailer f) 93
                    + 2 ^ 24 * byte_at (trailer f) 94
    /\ DataType r = byte_at (trailer f) 94
    /\ FileType r = byte_at (trailer f) 95
    /\ TInfo r = [ byte_at (trailer f) 96 + 256 * byte_at (trailer f) 97;
                   byte_at (trailer f) 98 + 256 * byte_at (trailer f) 99;
                   byte_at (trailer f) 100 + 256 * byte_at (trailer f) 101;
                   byte_at (trailer f) 102 + 256 * byte_at (trailer f) 103 ].
Proof.
  intros decoded.
  destruct (Parse_Some_inv _ _ _ _ decoded) as (f & Hf & Hlen & _ & -> & _).
  exists f. split; [exact Hf|].
  cbn [FileSize DataType FileType TInfo record_of].
  rewrite Uint32_arith, !Uint16_arith.
  rewrite !byte_at_slice by lia. cbn [Nat.add].
  repeat split.
Qed.

(** X4: the fields of a decoded record fit their Go types: the file size
    is below 2^32, data type and file type are below 256, there are four
    type-info words, each below 2^16, and the arrays keep their lengths
    5, 2 and 22. *)
Theorem Parse_field_ranges
    (fs : gmap string (list byte)) (filename : string) (r : SAUCE) :
  Parse fs filename = (Some r, None) ->
  0 <= FileSize r < 2 ^ 32
  /\ 0 <= DataType r < 256
  /\ 0 <= FileType r < 256
  /\ length (TInfo r) = 4%nat
  /\ Forall (fun v => 0 <= v < 2 ^ 16) (TInfo r)
  /\ length (ID r) = 5%nat
  /\ length (Version r) = 2%nat
  /\ length (TInfos r) = 22%nat.
Proof.
  intros decoded.
  destruct (Parse_numeric_fields _ _ _ decoded)
    as (f & Hf & -> & -> & -> & ->).
  destruct (Parse_Some_inv _ _ _ _ decoded) as (f' & _ & _ & _ & -> & _).
  unfold byte_at.
  repeat match goal with
  | |- context [byte_Z (index ?b ?i)] =>
      lazymatch goal with
      | H : 0 <= byte_Z (index b i) < 256 |- _ => fail
      | _ => pose proof (byte_Z_range (index b i))
      end
  end.
  split; [lia|]. split; [lia|]. split; [lia|]. split; [reflexivity|].
  split; [repeat constructor; lia|].
  repeat split.
Qed.

(** ** The text fields *)

Section TrimShape.

(** What [strings.TrimLeftFunc] and [strings.TrimRightFunc] return, for
    any predicate [f] and any bytes, ASCII or not. *)
Variable f : Z -> bool.

Lemma strings_TrimLeftFunc_loop_suffix (s : list byte) (skip : nat) :
  exists pre, s = pre ++ strings_TrimLeftFunc_loop f skip s.
Proof.
  revert skip. induction s as [|c t IH]; intros skip; [exists []; reflexivity|].
  cbn [strings_TrimLeftFunc_loop]. destruct skip as [|k].
  - destruct (utf8_DecodeRuneInString (c :: t)) as [r size].
    destruct (f r).
    + destruct (IH (size - 1)%nat) as [pre Hpre].
      exists (c :: pre). cbn [app]. f_equal. exact Hpre.
    + exists []. reflexivity.
  - destruct (IH k) as [pre Hpre].
    exists (c :: pre). cbn [app]. f_equal. exact Hpre.
Qed.

Lemma strings_TrimLeftFunc_loop_head (s : list byte) (skip : nat) :
  strings_TrimLeftFunc_loop f skip s = []
  \/ f (fst (utf8_DecodeRuneInString (strings_TrimLeftFunc_loop f skip s)))
     = false.
Proof.
  revert skip. induction s as [|c t IH]; intros skip; [left; reflexivity|].
  cbn [strings_TrimLeftFunc_loop]. destruct skip as [|k]; [|apply IH].
  destruct (utf8_DecodeRuneInString (c :: t)) as [r size] eqn:E.
  destruct (f r) eqn:Hf; [apply IH|].
  right. rewrite E. exact Hf.
Qed.

Lemma strings_TrimRightFunc_loop_prefix (fuel : nat) (s : list byte) :
  exists post, s = strings_TrimRightFunc_loop f fuel s ++ post.
Proof.
  revert s. induction fuel as [|k IH]; intros s.
  - exists []. cbn. rewrite app_nil_r. reflexivity.
  - cbn [strings_TrimRightFunc_loop]. destruct s as [|c t]; [exists []; reflexivity|].
    destruct (utf8_DecodeLastRuneInString (c :: t)) as [r size].
    destruct (f r); [|exists []; rewrite app_nil_r; reflexivity].
    destruct (IH (take (length (c :: t) - size) (c :: t))) as [post Hpost].
    exists (post ++ drop (length (c :: t) - size) (c :: t)).
    rewrite app_assoc, <- Hpost. symmetry. apply take_drop.
Qed.

End TrimShape.

Lemma utf8_scan_back_le (s : list byte) (steps start : nat) :
  (utf8_scan_back s steps start <= start)%nat.
Proof.
  revert start. induction steps as [|k IH]; intros start; cbn; [lia|].
  destruct (utf8_RuneStart (index s start)); [lia|].
  destruct start as [|p]; [lia|]. specialize (IH p). lia.
Qed.

Lemma utf8_DecodeRuneInString_size (s : list byte) :
  s <> [] -> (1 <= snd (utf8_DecodeRuneInString s))%nat.
Proof.
  intros Hs. unfold utf8_DecodeRuneInString.
  destruct s as [|c0 t]; [contradiction|].
  repeat match goal with
  | |- context [if ?c then _ else _] => destruct c
  | |- context [match ?o with Some _ => _ | None => _ end] =>
      destruct o as [[[? ?] ?]|]
  end; cbn [snd]; lia.
Qed.

Lemma utf8_DecodeLastRuneInString_size (s : list byte) :
  s <> [] -> (1 <= snd (utf8_DecodeLastRuneInString s))%nat.
Proof.
  intros Hs. unfold utf8_DecodeLastRuneInString.
  destruct (length s) as [|start] eqn:Hlen.
  { destruct s; [contradiction | discriminate]. }
  destruct (_ <? utf8_RuneSelf); [cbn; lia|].
  set (start' := match start with
                 | O => O
                 | S p => utf8_scan_back s (start - (S start - 4)) p
                 end).
  assert (start' <= start)%nat as Hle.
  { subst start'. destruct start as [|p]; [lia|].
    pose proof (utf8_scan_back_le s (S p - (S (S p) - 4)) p). lia. }
  pose proof (utf8_DecodeRuneInString_size (slice start' (S start) s)) as Hsz.
  destruct (utf8_DecodeRuneInString (slice start' (S start) s)) as [r size].
  destruct (Nat.eqb_spec (start' + size) (S start)); cbn [snd]; [|lia].
  apply Hsz. intros Hnil. apply (f_equal (@length byte)) in Hnil.
  rewrite length_slice in Hnil by lia. cbn in Hnil. lia.
Qed.

Lemma strings_TrimRightFunc_loop_last (f : Z -> bool) (fuel : nat)
    (s : list byte) :
  (length s <= fuel)%nat ->
  strings_TrimRightFunc_loop f fuel s = []
  \/ f (fst (utf8_DecodeLastRuneInString (strings_TrimRightFunc_loop f fuel s)))
     = false.
Proof.
  revert s. induction fuel as [|k IH]; intros s Hlen.
  - left. destruct s; [reflexivity | cbn in Hlen; lia].
  - cbn [strings_TrimRightFunc_loop]. destruct s as [|c t]; [left; reflexivity|].
    pose proof (utf8_DecodeLastRuneInString_size (c :: t)) as Hsz.
    destruct (utf8_DecodeLastRuneInString (c :: t)) as [r size] eqn:E.
    destruct (f r) eqn:Hf.
    + apply IH. rewrite length_take. cbn [snd] in Hsz.
      assert (1 <= size)%nat by (apply Hsz; discriminate). lia.
    + right. rewrite E. exact Hf.
Qed.

Lemma ascii_space_is_ascii (c : byte) : ascii_space c = true -> is_ascii c.
Proof.
  unfold ascii_space, is_ascii. intros H.
  apply orb_true_iff in H as [H|H].
  - apply andb_true_iff in H as [_ H]. apply Z.leb_le in H. lia.
  - apply Z.eqb_eq in H. lia.
Qed.

Lemma strings_TrimSpace_cut (s : string) :
  cut_from (list_byte_of_string s) (strings_TrimSpace s).
Proof.
  unfold cut_from, strings_TrimSpace, strings_TrimLeftFunc,
    strings_TrimRightFunc.
  rewrite list_byte_of_string_of_list_byte.
  destruct (strings_TrimLeftFunc_loop_suffix unicode_IsSpace
              (list_byte_of_string s) 0) as [pre Hpre].
  set (t := strings_TrimLeftFunc_loop unicode_IsSpace 0 (list_byte_of_string s))
    in *.
  destruct (strings_TrimRightFunc_loop_prefix unicode_IsSpace (length t) t)
    as [post Hpost].
  exists pre, post. rewrite <- Hpost. exact Hpre.
Qed.

(** The result of [strings.TrimSpace] neither starts nor ends with a tab,
    a line feed, a vertical tab, a form feed, a carriage return or a
    space, whatever other bytes the string holds. *)
Lemma strings_TrimSpace_no_outer_blank (s : string) :
  no_outer_blank (list_byte_of_string (strings_TrimSpace s)).
Proof.
  unfold strings_TrimSpace, strings_TrimLeftFunc, strings_TrimRightFunc.
  rewrite list_byte_of_string_of_list_byte.
  set (t := strings_TrimLeftFunc_loop unicode_IsSpace 0 (list_byte_of_string s)).
  pose proof (strings_TrimLeftFunc_loop_head unicode_IsSpace
                (list_byte_of_string s) 0) as Hhead.
  fold t in Hhead.
  destruct (strings_TrimRightFunc_loop_prefix unicode_IsSpace (length t) t)
    as [post Hpost].
  pose proof (strings_TrimRightFunc_loop_last unicode_IsSpace (length t) t
                (Nat.le_refl _)) as Hlast.
  set (u := strings_TrimRightFunc_loop unicode_IsSpace (length t) t) in *.
  split.
  - intros c rest Hu. destruct (ascii_space c) eqn:Hc; [|reflexivity].
    exfalso. pose proof (ascii_space_is_ascii c Hc) as Hascii.
    rewrite Hu in Hpost. cbn [app] in Hpost.
    destruct Hhead as [Hnil|Hf]; [rewrite Hnil in Hpost; discriminate|].
    rewrite Hpost, (utf8_DecodeRuneInString_ascii c _ Hascii) in Hf.
    cbn [fst] in Hf. rewrite (unicode_IsSpace_ascii c Hascii) in Hf. congruence.
  - intros init c Hu. destruct (ascii_space c) eqn:Hc; [|reflexivity].
    exfalso. pose proof (ascii_space_is_ascii c Hc) as Hascii.
    destruct Hlast as [Hnil|Hf].
    { rewrite Hu in Hnil. destruct init; discriminate. }
    rewrite Hu, (utf8_DecodeLastRuneInString_ascii init c Hascii) in Hf.
    cbn [fst] in Hf. rewrite (unicode_IsSpace_ascii c Hascii) in Hf. congruence.
Qed.

Lemma drop_while_blanks (pre s : list byte) :
  blanks pre -> drop_while ascii_space (pre ++ s) = drop_while ascii_space s.
Proof.
  induction 1 as [|c t Hc Ht IH]; [reflexivity|].
  cbn [app drop_while]. rewrite Hc. exact IH.
Qed.

Lemma drop_while_head (s : list byte) :
  (forall c rest, s = c :: rest -> ascii_space c = false) ->
  drop_while ascii_space s = s.
Proof.
  intros H. destruct s as [|c t]; [reflexivity|].
  cbn [drop_while]. rewrite (H c t eq_refl). reflexivity.
Qed.

(** Text written into a field with blank padding on either side is read
    back as written. *)
Lemma strings_TrimSpace_padded (pre s post : list byte) :
  blanks pre -> blanks post -> Forall is_ascii s -> no_outer_blank s ->
  strings_TrimSpace (string_of_list_byte (pre ++ s ++ post))
  = string_of_list_byte s.
Proof.
  intros Hpre Hpost Hs [Hhd Hlast].
  assert (forall p, blanks p -> Forall is_ascii p) as Hblank.
  { intros p Hp. eapply Forall_impl; [exact Hp|]. exact ascii_space_is_ascii. }
  rewrite strings_TrimSpace_ascii
    by (repeat (apply Forall_app; split); auto).
  f_equal. unfold trim_bytes.
  rewrite (drop_while_blanks pre _ Hpre).
  destruct s as [|c t].
  - cbn [app]. rewrite <- (app_nil_r post) at 1.
    rewrite (drop_while_blanks post [] Hpost). cbn [drop_while rev].
    reflexivity.
  - rewrite (drop_while_head ((c :: t) ++ post))
      by (intros c' rest Heq; cbn [app] in Heq; injection Heq as <- _;
          exact (Hhd c t eq_refl)).
    rewrite rev_app_distr.
    rewrite drop_while_blanks by (apply Forall_rev; exact Hpost).
    rewrite (drop_while_head (rev (c :: t))); [apply rev_involutive|].
    intros c' rest Hrev. apply (Hlast (rev rest) c').
    rewrite <- (rev_involutive (c :: t)), Hrev. reflexivity.
Qed.

Lemma length_string_of_list_byte (l : list byte) :
  String.length (string_of_list_byte l) = length l.
Proof.
  induction l as [|c t IH]; [reflexivity|].
  change (string_of_list_byte (c :: t))
    with (String (ascii_of_byte c) (string_of_list_byte t)).
  cbn [String.length length]. rewrite IH. reflexivity.
Qed.

(** X5: each text field of a decoded record is a run of consecutive bytes
    of its field of the trailer, so the title has at most 34 bytes and
    the author and the group at most 20; trimming removes bytes at the
    two ends only and never alters, inserts or reorders bytes. *)
Theorem Parse_text_cut_from_fields
    (fs : gmap string (list byte)) (filename : string) (r : SAUCE) :
  Parse fs filename = (Some r, None) ->
  exists f, fs !! filename = Some f
    /\ cut_from (slice 7 41 (trailer f)) (Title r)
    /\ cut_from (slice 41 61 (trailer f)) (Author r)
    /\ cut_from (slice 61 81 (trailer f)) (Group r)
    /\ (String.length (Title r) <= 34)%nat
    /\ (String.length (Author r) <= 20)%nat
    /\ (String.length (Group r) <= 20)%nat.
Proof.
  intros decoded.
  destruct (Parse_Some_inv _ _ _ _ decoded) as (f & Hf & Hlen & _ & -> & _).
  assert (length (trailer f) = 128%nat) as Hb by (apply trailer_length; lia).
  assert (forall lo hi, (hi <= 128)%nat ->
            let v := strings_TrimSpace
                       (string_of_list_byte (slice lo hi (trailer f))) in
            cut_from (slice lo hi (trailer f)) v
            /\ (String.length v <= hi - lo)%nat) as Hfield.
  { intros lo hi Hhi v.
    pose proof (strings_TrimSpace_cut
                  (string_of_list_byte (slice lo hi (trailer f)))) as Hcut.
    rewrite list_byte_of_string_of_list_byte in Hcut.
    split; [exact Hcut|].
    destruct Hcut as (pre & post & Hcut).
    apply (f_equal (@length byte)) in Hcut.
    rewrite length_slice, !length_app in Hcut by lia.
    fold v in Hcut.
    rewrite <- (string_of_list_byte_of_string v).
    rewrite length_string_of_list_byte. lia. }
  exists f. split; [exact Hf|]. cbn [Title Author Group record_of].
  destruct (Hfield 7%nat 41%nat ltac:(lia)) as [? ?].
  destruct (Hfield 41%nat 61%nat ltac:(lia)) as [? ?].
  destruct (Hfield 61%nat 81%nat ltac:(lia)) as [? ?].
  repeat split; assumption.
Qed.

(** X6: no text field of a decoded record starts or ends with a tab, a
    line feed, a vertical tab, a form feed, a carriage return or a space,
    whatever bytes the trailer holds. *)
Theorem Parse_text_has_no_outer_blank
    (fs : gmap string (list byte)) (filename : string) (r : SAUCE) :
  Parse fs filename = (Some r, None) ->
  no_outer_blank (list_byte_of_string (Title r))
  /\ no_outer_blank (list_byte_of_string (Author r))
  /\ no_outer_blank (list_byte_of_string (Group r)).
Proof.
  intros decoded.
  destruct (Parse_Some_inv _ _ _ _ decoded) as (f & _ & _ & _ & -> & _).
  cbn [Title Author Group record_of].
  repeat split; apply strings_TrimSpace_no_outer_blank.
Qed.

(** X7: text that a writer stored with blank padding is read back as
    written: when the title field holds ASCII text that neither starts
    nor ends with a blank, with blanks before and after it, the decoded
    title is that text; the same for the author and the group. *)
Theorem Parse_text_round_trip
    (fs : gmap string (list byte)) (filename : string) (r : SAUCE)
    (f pre s post : list byte) :
  Parse fs filename = (Some r, None) ->
  fs !! filename = Some f ->
  blanks pre -> blanks post -> Forall is_ascii s -> no_outer_blank s ->
  (slice 7 41 (trailer f) = pre ++ s ++ post ->
   Title r = string_of_list_byte s)
  /\ (slice 41 61 (trailer f) = pre ++ s ++ post ->
      Author r = string_of_list_byte s)
  /\ (slice 61 81 (trailer f) = pre ++ s ++ post ->
      Group r = string_of_list_byte s).
Proof.
  intros decoded Hf Hpre Hpost Hs Hblank.
  destruct (Parse_Some_inv _ _ _ _ decoded) as (f' & Hf' & _ & _ & -> & _).
  rewrite Hf in Hf'. injection Hf' as <-.
  cbn [Title Author Group record_of].
  repeat split; intros ->; apply strings_TrimSpace_padded; assumption.
Qed.

(** ** The report *)

Lemma Z_range_forallb (P : Z -> bool) (n : nat) :
  forallb P (Z_range n) = true ->
  forall z, 0 <= z < Z.of_nat n -> P z = true.
Proof.
  intros H z Hz. rewrite forallb_forall in H. apply H.
  unfold Z_range. apply in_map_iff. exists (Z.to_nat z).
  split; [lia|]. apply in_seq. lia.
Qed.

(** X8: for data type Bitmap (2) the report ends with the size line
    "w x h pixels" for every file type, named or not, and a width of 0 is
    printed as 0. *)
Theorem Dump_size_bitmap (r : SAUCE) :
  DataType r = 2 ->
  length (Dump r) = 11%nat
  /\ Dump r !! 10%nat
     = Some ("size....: " +:+ fmt_d (TInfo_at r 0) +:+ " x "
             +:+ fmt_d (TInfo_at r 1) +:+ " pixels" +:+ LF).
Proof.
  intros Hd. unfold Dump. rewrite Hd.
  destruct (SAUCEFileType !! 2); split; reflexivity.
Qed.


(** [DataTypeString] on every value of a [uint8]. *)
Lemma SAUCEDataType_names :
  forallb (fun dt => Bool.eqb (negb (String.eqb (default "" (SAUCEDataType !! dt)) ""))
                              (dt <=? 8))
          (Z_range 256) = true.
Proof. vm_compute. reflexivity. Qed.

(** [FileTypeString] on every pair of [uint8] values. *)
Lemma SAUCEFileType_names :
  forallb (fun dt =>
             Bool.eqb (bool_decide (is_Some (SAUCEFileType !! dt)))
                      (0 <? file_type_count dt)
             && forallb (fun ft =>
                  Bool.eqb
                    (negb (String.eqb
                             (default "" (default ∅ (SAUCEFileType !! dt) !! ft))
                             ""))
                    (ft <? file_type_count dt))
                  (Z_range 256))
          (Z_range 256) = true.
Proof. vm_compute. reflexivity. Qed.

Lemma negb_eqb_empty (s : string) (b : bool) :
  Bool.eqb (negb (String.eqb s "")) b = true -> (s <> "" <-> b = true).
Proof.
  intros H. apply Bool.eqb_prop in H. subst b.
  destruct (String.eqb_spec s ""); cbn; split; congruence.
Qed.

(** X10: for a data type within [uint8], [DataTypeString] gives a name
    exactly for the codes 0 to 8; for any other code it gives the empty
    string and the data-type line of the report reads "datatype: N ()". *)
Theorem DataTypeString_known (r : SAUCE) :
  0 <= DataType r < 256 ->
  (DataTypeString r <> "" <-> DataType r <= 8)
  /\ (8 < DataType r ->
      DataTypeString r = ""
      /\ Dump r !! 7%nat
         = Some ("datatype: " +:+ fmt_d (DataType r) +:+ " ()" +:+ LF)).
Proof.
  intros Hd.
  pose proof (Z_range_forallb _ _ SAUCEDataType_names (DataType r) Hd) as H.
  cbv beta in H. apply negb_eqb_empty in H. fold (DataTypeString r) in H.
  rewrite Z.leb_le in H. split; [exact H|].
  intros Hbig.
  assert (DataTypeString r = "") as Hname.
  { destruct (String.eqb_spec (DataTypeString r) "") as [E|E]; [exact E|].
    apply H in E. lia. }
  split; [exact Hname|].
  unfold Dump. rewrite Hname. reflexivity.
Qed.

(** X11: for a data type and a file type within [uint8], [FileTypeString]
    gives a name exactly when the file type is below the number of types
    registered for the data type: 9 for Character, 14 for Bitmap, 4 for
    Vector, 25 for Audio, 10 for Archive and none otherwise.  When the
    data type has a table and the file type is not in it, the file-type
    line of the report reads "filetype: N ()". *)
Theorem FileTypeString_known (r : SAUCE) :
  0 <= DataType r < 256 ->
  0 <= FileType r < 256 ->
  (FileTypeString r <> "" <-> FileType r < file_type_count (DataType r))
  /\ (0 < file_type_count (DataType r) <= FileType r ->
      FileTypeString r = ""
      /\ Dump r !! 8%nat
         = Some ("filetype: " +:+ fmt_d (FileType r) +:+ " ()" +:+ LF)).
Proof.
  intros Hd Hf.
  pose proof (Z_range_forallb _ _ SAUCEFileType_names (DataType r) Hd) as H.
  cbv beta in H. apply andb_true_iff in H as [Htab H].
  pose proof (Z_range_forallb _ _ H (FileType r) Hf) as Hname.
  cbv beta in Hname. apply negb_eqb_empty in Hname.
  fold (FileTypeString r) in Hname. rewrite Z.ltb_lt in Hname.
  split; [exact Hname|].
  intros [Hpos Hbig].
  assert (FileTypeString r = "") as Hempty.
  { destruct (String.eqb_spec (FileTypeString r) "") as [E|E]; [exact E|].
    apply Hname in E. lia. }
  split; [exact Hempty|].
  apply Bool.eqb_prop in Htab.
  assert (is_Some (SAUCEFileType !! DataType r)) as [tbl Htbl].
  { eapply bool_decide_eq_true_1. rewrite Htab. apply Z.ltb_lt. exact Hpos. }
  unfold Dump. rewrite Htbl, Hempty. reflexivity.
Qed.

(** ** Dates *)

Lemma time_isLeap_period (y k : Z) :
  time_isLeap (y + 400 * k) = time_isLeap y.
Proof.
  unfold time_isLeap.
  replace (y + 400 * k) with (y + (100 * k) * 4) at 1 by lia.
  replace (y + 400 * k) with (y + (4 * k) * 100) at 1 by lia.
  replace (y + 400 * k) with (y + k * 400) by lia.
  rewrite !Z.mod_add by lia. reflexivity.
Qed.

Lemma time_daysSinceYear1_period (y k : Z) :
  time_daysSinceYear1 (y + 400 * k) = time_daysSinceYear1 y + 146097 * k.
Proof.
  unfold time_daysSinceYear1. cbv zeta.
  replace ((y + 400 * k - 1) / 4) with ((y - 1) / 4 + 100 * k).
  2:{ replace (y + 400 * k - 1) with (y - 1 + (100 * k) * 4) by lia.
      rewrite Z.div_add by lia. reflexivity. }
  replace ((y + 400 * k - 1) / 100) with ((y - 1) / 100 + 4 * k).
  2:{ replace (y + 400 * k - 1) with (y - 1 + (4 * k) * 100) by lia.
      rewrite Z.div_add by lia. reflexivity. }
  replace ((y + 400 * k - 1) / 400) with ((y - 1) / 400 + k).
  2:{ replace (y + 400 * k - 1) with (y - 1 + k * 400) by lia.
      rewrite Z.div_add by lia. reflexivity. }
  lia.
Qed.

Lemma time_Date_period (y m d k : Z) :
  1 <= m <= 12 ->
  absDays (time_Date (y + 400 * k) m d)
  = absDays (time_Date y m d) + 146097 * k.
Proof.
  intros Hm. unfold time_Date. cbv zeta. cbn [absDays].
  rewrite (Z.div_small (m - 1) 12) by lia.
  rewrite !Z.add_0_r.
  rewrite time_isLeap_period, time_daysSinceYear1_period.
  destruct (time_isLeap y && (2 <=? (m - 1) mod 12)); lia.
Qed.

(** The part of [Time.Date] that follows the 400-year cycles. *)
Lemma time_Time_Date_period (n k : Z) :
  time_Time_Date {| absDays := n + 146097 * k |}
  = match time_Time_Date {| absDays := n |} with
    | (y, m, d) => (y + 400 * k, m, d)
    end.
Proof.
  unfold time_Time_Date. cbn [absDays]. cbv zeta.
  replace ((n + 146097 * k) / 146097) with (n / 146097 + k).
  2:{ replace (n + 146097 * k) with (n + k * 146097) by lia.
      rewrite Z.div_add by lia. reflexivity. }
  replace (n + 146097 * k - 146097 * (n / 146097 + k))
    with (n - 146097 * (n / 146097)) by lia.
  set (d1 := n - 146097 * (n / 146097)).
  set (n1 := d1 / 36524 - Z.shiftr (d1 / 36524) 2).
  set (d2 := d1 - 36524 * n1).
  set (d3 := d2 - 1461 * (d2 / 1461)).
  set (n3 := d3 / 365 - Z.shiftr (d3 / 365) 2).
  set (yday := d3 - 365 * n3).
  replace (400 * (n / 146097 + k) + 100 * n1 + 4 * (d2 / 1461) + n3 + 1)
    with (400 * (n / 146097) + 100 * n1 + 4 * (d2 / 1461) + n3 + 1 + 400 * k)
    by lia.
  set (year := 400 * (n / 146097) + 100 * n1 + 4 * (d2 / 1461) + n3 + 1).
  rewrite time_isLeap_period.
  repeat match goal with
         | |- context [if ?c then _ else _] => destruct c
         end; reflexivity.
Qed.

Lemma time_Time_Date_split (t : time_Time) :
  time_Time_Date t
  = match year_day_of (absDays t) with
    | (year, yday) =>
      match month_day_of (time_isLeap year) yday with
      | (month, day) => (year, month, day)
      end
    end.
Proof.
  unfold time_Time_Date, year_day_of, month_day_of. cbv zeta.
  repeat match goal with
         | |- context [if ?c then _ else _] => destruct c
         end; reflexivity.
Qed.

Lemma time_isLeap_spec (y : Z) :
  time_isLeap y = true
  <-> (y mod 4 = 0 /\ (y mod 100 <> 0 \/ y mod 400 = 0)).
Proof.
  unfold time_isLeap.
  rewrite andb_true_iff, orb_true_iff, negb_true_iff, !Z.eqb_eq, Z.eqb_neq.
  reflexivity.
Qed.

(** Within the cycle of the years 1 to 400, the year and the day of the
    year are found again from the day number. *)
Lemma year_day_of_cycle (y0 yd : Z) :
  1 <= y0 <= 400 ->
  0 <= yd < 365 + (if time_isLeap y0 then 1 else 0) ->
  year_day_of (time_daysSinceYear1 y0 + yd) = (y0, yd).
Proof.
  intros Hy Hyd. unfold year_day_of. cbv zeta.
  rewrite !Z.shiftr_div_pow2 by lia. change (2 ^ 2) with 4.
  unfold time_daysSinceYear1 in *. cbv zeta.
  assert (Hleap := time_isLeap_spec y0).
  pose (c := (y0 - 1) / 100). pose (q := ((y0 - 1) mod 100) / 4).
  pose (r := (y0 - 1) mod 4).
  assert (y0 - 1 = 100 * c + 4 * q + r /\ 0 <= c <= 3 /\ 0 <= q <= 24
          /\ 0 <= r <= 3) as (Ey & Hc & Hq & Hr).
  { subst c q r. Z.div_mod_to_equations; lia. }
  assert ((y0 - 1) / 4 = 25 * c + q /\ (y0 - 1) / 100 = c
          /\ (y0 - 1) / 400 = 0) as (E4 & E100 & E400).
  { subst c q r. Z.div_mod_to_equations; lia. }
  rewrite E4, E100, E400.
  assert (0 <= yd < 365 + (if (r =? 3) && (negb (q =? 24) || (c =? 3)) then 1 else 0))
    as Hyd'.
  { destruct (time_isLeap y0).
    - destruct Hleap as [Hleap _]. specialize (Hleap eq_refl).
      assert ((r =? 3) && (negb (q =? 24) || (c =? 3)) = true) as ->; [|exact Hyd].
      apply andb_true_iff. rewrite orb_true_iff, negb_true_iff, !Z.eqb_eq, Z.eqb_neq.
      subst c q r. Z.div_mod_to_equations; lia.
    - destruct ((r =? 3) && (negb (q =? 24) || (c =? 3))); lia. }
  clear Hleap Hyd. clearbody c q r.
  set (n := 365 * (y0 - 1) + (25 * c + q) - c + 0 + yd).
  assert (n = 36524 * c + 1461 * q + 365 * r + yd) as En by (subst n; lia).
  clearbody n. subst n.
  assert (0 <= yd <= 365) as Hyd2
    by (destruct ((r =? 3) && (negb (q =? 24) || (c =? 3))); lia).
  assert (yd = 365 -> r = 3 /\ (q <> 24 \/ c = 3)) as H365.
  { intros E. destruct (Z.eqb_spec r 3); cbn [andb] in Hyd'; [|lia].
    destruct (Z.eqb_spec q 24); destruct (Z.eqb_spec c 3); cbn in Hyd'; lia. }
  clear Hyd'.
  set (n := 36524 * c + 1461 * q + 365 * r + yd).
  assert (n / 146097 = 0) as -> by (apply Z.div_small; subst n; lia).
  rewrite Z.mul_0_r, Z.sub_0_r.
  assert (n / 36524 - n / 36524 / 4 = c) as ->.
  { subst n. Z.div_mod_to_equations; lia. }
  replace (n - 36524 * c) with (1461 * q + 365 * r + yd) by (subst n; lia).
  assert ((1461 * q + 365 * r + yd) / 1461 = q) as ->.
  { Z.div_mod_to_equations; lia. }
  replace (1461 * q + 365 * r + yd - 1461 * q) with (365 * r + yd) by lia.
  assert ((365 * r + yd) / 365 - (365 * r + yd) / 365 / 4 = r) as ->.
  { Z.div_mod_to_equations; lia. }
  f_equal; lia.
Qed.

(** In a leap year and in a common year, every month and day is found
    again from the day of the year, which lies within the year. *)
Lemma month_day_of_year :
  forallb (fun leap : bool =>
    forallb (fun m0 =>
      forallb (fun d0 =>
        let m := m0 + 1 in
        let d := d0 + 1 in
        let dim := if m =? 2 then (if leap then 29 else 28)
                   else days_in_month 1 m in
        negb (d <=? dim)
        || ((0 <=? day_of_year leap m d)
            && (day_of_year leap m d <? 365 + (if leap then 1 else 0))
            && match month_day_of leap (day_of_year leap m d) with
               | (m', d') => (m' =? m) && (d' =? d)
               end))
        (Z_range 31))
      (Z_range 12))
    [true; false] = true.
Proof. vm_compute. reflexivity. Qed.

Lemma cycle_date (y0 m d : Z) :
  1 <= y0 <= 400 -> 1 <= m <= 12 -> 1 <= d <= days_in_month y0 m ->
  time_Time_Date (time_Date y0 m d) = (y0, m, d).
Proof.
  intros Hy Hm Hd.
  assert (days_in_month y0 m <= 31) as H31.
  { unfold days_in_month.
    repeat match goal with
           | |- context [if ?c then _ else _] => destruct c
           end; lia. }
  assert (days_in_month y0 m
          = if m =? 2 then (if time_isLeap y0 then 29 else 28)
            else days_in_month 1 m) as Hdim.
  { unfold days_in_month. destruct (m =? 2); reflexivity. }
  assert (time_Date y0 m d
          = {| absDays := time_daysSinceYear1 y0
                          + day_of_year (time_isLeap y0) m d |}) as ->.
  { unfold time_Date, day_of_year. cbv zeta.
    rewrite (Z.div_small (m - 1) 12), (Z.mod_small (m - 1) 12) by lia.
    rewrite Z.add_0_r.
    destruct (time_isLeap y0 && (2 <=? m - 1)); f_equal; lia. }
  rewrite time_Time_Date_split. cbn [absDays].
  pose proof month_day_of_year as Hc. cbn [forallb] in Hc.
  rewrite andb_true_r in Hc. apply andb_true_iff in Hc as [Hleap Hcommon].
  assert (forall leap : bool, time_isLeap y0 = leap ->
            forallb (fun m0 =>
              forallb (fun d0 =>
                let m := m0 + 1 in
                let d := d0 + 1 in
                let dim := if m =? 2 then (if leap then 29 else 28)
                           else days_in_month 1 m in
                negb (d <=? dim)
                || ((0 <=? day_of_year leap m d)
                    && (day_of_year leap m d <? 365 + (if leap then 1 else 0))
                    && match month_day_of leap (day_of_year leap m d) with
                       | (m', d') => (m' =? m) && (d' =? d)
                       end))
                (Z_range 31))
              (Z_range 12) = true ->
            match year_day_of (time_daysSinceYear1 y0 + day_of_year leap m d) with
            | (year, yday) =>
              match month_day_of (time_isLeap year) yday with
              | (month, day) => (year, month, day)
              end
            end = (y0, m, d)) as Hgen.
  { intros leap Eleap Hall.
    pose proof (Z_range_forallb _ _ Hall (m - 1) ltac:(lia)) as Hc2.
    cbv beta in Hc2.
    pose proof (Z_range_forallb _ _ Hc2 (d - 1) ltac:(lia)) as Hc3.
    cbv beta zeta in Hc3.
    replace (m - 1 + 1) with m in Hc3 by lia.
    replace (d - 1 + 1) with d in Hc3 by lia.
    rewrite Hdim, Eleap in Hd.
    apply orb_true_iff in Hc3 as [Hbad|Hok].
    { apply negb_true_iff, Z.leb_gt in Hbad. lia. }
    apply andb_true_iff in Hok as [Hrange Hmd].
    apply andb_true_iff in Hrange as [Hlo Hhi].
    apply Z.leb_le in Hlo. apply Z.ltb_lt in Hhi.
    rewrite year_day_of_cycle by (rewrite ?Eleap; lia).
    rewrite Eleap.
    destruct (month_day_of leap (day_of_year leap m d)) as [m' d'].
    apply andb_true_iff in Hmd as [Hm' Hd'].
    apply Z.eqb_eq in Hm', Hd'. subst. reflexivity. }
  destruct (time_isLeap y0) eqn:Eleap.
  - apply (Hgen true eq_refl Hleap).
  - apply (Hgen false eq_refl Hcommon).
Qed.

(** [time.Date] followed by [Time.Date] gives back every date of the
    proleptic Gregorian calendar, in any year. *)
Lemma time_Date_round_trip (y m d : Z) :
  valid_date y m d -> time_Time_Date (time_Date y m d) = (y, m, d).
Proof.
  intros [Hm Hd].
  set (k := (y - 1) / 400). set (y0 := (y - 1) mod 400 + 1).
  assert (y = y0 + 400 * k) as Hy.
  { subst y0 k. pose proof (Z.div_mod (y - 1) 400). lia. }
  assert (1 <= y0 <= 400) as Hy0.
  { subst y0. pose proof (Z.mod_pos_bound (y - 1) 400). lia. }
  clearbody y0 k. subst y.
  assert (days_in_month (y0 + 400 * k) m = days_in_month y0 m) as Hdim.
  { unfold days_in_month. rewrite time_isLeap_period. reflexivity. }
  rewrite Hdim in Hd.
  assert (time_Date (y0 + 400 * k) m d
          = {| absDays := absDays (time_Date y0 m d) + 146097 * k |}) as ->.
  { pose proof (time_Date_period y0 m d k Hm) as Hp.
    destruct (time_Date (y0 + 400 * k) m d) as [n]. cbn [absDays] in Hp.
    rewrite Hp. reflexivity. }
  rewrite time_Time_Date_period.
  replace {| absDays := absDays (time_Date y0 m d) |} with (time_Date y0 m d)
    by (destruct (time_Date y0 m d); reflexivity).
  rewrite (cycle_date y0 m d Hy0 Hm Hd). reflexivity.
Qed.

(** The digit test of [strconv.Atoi], [ch -= '0'; ch > 9] on a byte that
    wraps around, accepts the ten digits and nothing else. *)
Lemma strconv_digit_test (c : byte) :
  (9 <? (byte_Z c - 48) mod 256) = negb (is_digit c)
  /\ (is_digit c = true -> (byte_Z c - 48) mod 256 = byte_Z c - 48).
Proof.
  pose proof (byte_Z_range c) as Hc. unfold is_digit.
  destruct (Z.leb_spec 48 (byte_Z c)) as [Hlo|Hlo].
  - rewrite Z.mod_small by lia. split; [|reflexivity].
    destruct (Z.leb_spec (byte_Z c) 57); destruct (Z.ltb_spec 9 (byte_Z c - 48));
      cbn; lia || reflexivity.
  - split; [|discriminate].
    replace (byte_Z c - 48) with (byte_Z c + 208 + (-1) * 256) by lia.
    rewrite Z.mod_add, Z.mod_small by lia.
    destruct (Z.ltb_spec 9 (byte_Z c + 208)); [reflexivity | lia].
Qed.

Lemma strconv_digits_spec (ds : list byte) (n : Z) :
  strconv_digits ds n
  = if forallb is_digit ds
    then Some (fold_left (fun n c => n * 10 + (byte_Z c - 48)) ds n)
    else None.
Proof.
  revert n. induction ds as [|c t IH]; intros n; [reflexivity|].
  cbn [strconv_digits forallb fold_left].
  destruct (strconv_digit_test c) as [-> Hval].
  destruct (is_digit c); cbn [negb andb]; [|reflexivity].
  rewrite Hval by reflexivity. apply IH.
Qed.

(** [strconv.Atoi] on a string shorter than 19 bytes: the integer the
    string spells and no error, or zero and a syntax error. *)
Lemma strconv_Atoi_signed_decimal (b : list byte) :
  (length b < 19)%nat ->
  strconv_Atoi (string_of_list_byte b)
  = (signed_decimal b,
     if numeric b then None
     else Some {| Func := "Atoi"; Num := string_of_list_byte b;
                  Err := strconv_ErrSyntax |}).
Proof.
  intros Hlen. unfold strconv_Atoi, strconv_ParseInt, signed_decimal, numeric.
  rewrite list_byte_of_string_of_list_byte.
  destruct b as [|c t]; [reflexivity|].
  cbn [length] in *.
  replace ((0 <? S (length t))%nat && (S (length t) <? 19)%nat) with true.
  2:{ symmetry. apply andb_true_iff. split; apply Nat.ltb_lt; lia. }
  unfold unsigned_numeric, decimal.
  destruct (bool_decide (c = "-"%byte)) eqn:Hminus;
    destruct (bool_decide (c = "+"%byte)) eqn:Hplus; cbn [orb].
  - destruct t as [|c' t']; [reflexivity|].
    rewrite strconv_digits_spec.
    destruct (forallb is_digit (c' :: t')); reflexivity.
  - destruct t as [|c' t']; [reflexivity|].
    rewrite strconv_digits_spec.
    destruct (forallb is_digit (c' :: t')); reflexivity.
  - destruct t as [|c' t']; [reflexivity|].
    rewrite strconv_digits_spec.
    destruct (forallb is_digit (c' :: t')); reflexivity.
  - rewrite strconv_digits_spec.
    destruct (forallb is_digit (c :: t)); reflexivity.
Qed.

Lemma date_field_signed_decimal (lo hi : nat) (b : list byte) :
  (hi <= length b)%nat -> (hi - lo < 19)%nat ->
  date_field lo hi b = signed_decimal (slice lo hi b).
Proof.
  intros Hhi Hlen. unfold date_field.
  rewrite strconv_Atoi_signed_decimal by (rewrite length_slice; lia).
  unfold signed_decimal. destruct (numeric (slice lo hi b)); reflexivity.
Qed.

(** X12: the date of a decoded record is [time.Date] of three numbers,
    read from the bytes at trailer offsets 82..85, 86..87 and 88..89:
    each is the integer its bytes spell when they are an optional sign
    followed by one digit or more, and zero otherwise.  Spaces, a lone
    sign or any other byte make the whole sub-field count as zero. *)
Theorem Parse_date_fields
    (fs : gmap string (list byte)) (filename : string) (r : SAUCE) :
  Parse fs filename = (Some r, None) ->
  exists f, fs !! filename = Some f
    /\ Date r = time_Date (signed_decimal (slice 82 86 (trailer f)))
                          (signed_decimal (slice 86 88 (trailer f)))
                          (signed_decimal (slice 88 90 (trailer f))).
Proof.
  intros decoded.
  destruct (Parse_Some_inv _ _ _ _ decoded) as (f & Hf & Hlen & _ & -> & _).
  assert (length (trailer f) = 128%nat) as Hb by (apply trailer_length; lia).
  exists f. split; [exact Hf|]. cbn [Date record_of].
  rewrite (parseDate_fields _ _ Hb).
  rewrite !date_field_signed_decimal by lia. reflexivity.
Qed.

(** A run of digits spells its value: a digit is not a sign. *)
Lemma signed_decimal_digits (ds : list byte) :
  ds <> [] -> forallb is_digit ds = true ->
  signed_decimal ds = decimal ds.
Proof.
  intros Hne Hd. unfold signed_decimal, numeric, unsigned_numeric.
  destruct ds as [|c t]; [contradiction|].
  assert (is_digit c = true) as Hc
    by (cbn [forallb] in Hd; apply andb_true_iff in Hd as [Hc _]; exact Hc).
  assert (bool_decide (c = "-"%byte) = false) as ->.
  { apply bool_decide_eq_false. intros ->. discriminate Hc. }
  assert (bool_decide (c = "+"%byte) = false) as ->.
  { apply bool_decide_eq_false. intros ->. discriminate Hc. }
  cbn [orb]. rewrite Hd. reflexivity.
Qed.

Lemma time_Time_String_shown (t : time_Time) (y m d : Z) :
  time_Time_Date t = (y, m, d) -> time_Time_String t = date_shown y m d.
Proof. intros H. unfold time_Time_String. rewrite H. reflexivity. Qed.

(** X13: eight digits YYYYMMDD at trailer offsets 82..89 that name a
    valid calendar date are decoded to exactly that year, month and day,
    and the report shows the date as "YYYY-MM-DD 00:00:00 +0000 UTC". *)
Theorem Parse_date_round_trip
    (fs : gmap string (list byte)) (filename : string) (r : SAUCE)
    (f ys ms ds : list byte) :
  Parse fs filename = (Some r, None) ->
  fs !! filename = Some f ->
  length ys = 4%nat -> length ms = 2%nat -> length ds = 2%nat ->
  forallb is_digit (ys ++ ms ++ ds) = true ->
  slice 82 90 (trailer f) = ys ++ ms ++ ds ->
  valid_date (decimal ys) (decimal ms) (decimal ds) ->
  time_Time_Date (Date r) = (decimal ys, decimal ms, decimal ds)
  /\ Dump r !! 5%nat
     = Some ("date....: "
             +:+ date_shown (decimal ys) (decimal ms) (decimal ds) +:+ LF).
Proof.
  intros decoded Hf Ly Lm Ld Hdigits Hfield Hvalid.
  destruct (Parse_date_fields _ _ _ decoded) as (f' & Hf' & HDate).
  rewrite Hf in Hf'. injection Hf' as <-.
  rewrite !forallb_app in Hdigits.
  apply andb_true_iff in Hdigits as [Dy Hdigits].
  apply andb_true_iff in Hdigits as [Dm Dd].
  assert (slice 82 86 (trailer f) = ys /\ slice 86 88 (trailer f) = ms
          /\ slice 88 90 (trailer f) = ds) as (Sy & Sm & Sd).
  { pose proof (slice_slice 82 90 0 4 (trailer f) ltac:(lia) ltac:(lia)) as E1.
    pose proof (slice_slice 82 90 4 6 (trailer f) ltac:(lia) ltac:(lia)) as E2.
    pose proof (slice_slice 82 90 6 8 (trailer f) ltac:(lia) ltac:(lia)) as E3.
    cbn [Nat.add] in E1, E2, E3. rewrite <- E1, <- E2, <- E3, Hfield.
    unfold slice. cbn [Nat.sub drop].
    symmetry in Ly, Lm, Ld.
    split; [apply take_app_length'; exact Ly|].
    rewrite (drop_app_length' _ _ 4 Ly).
    split; [apply take_app_length'; exact Lm|].
    change 6%nat with (4 + 2)%nat. rewrite <- drop_drop.
    rewrite (drop_app_length' _ _ 4 Ly), (drop_app_length' _ _ 2 Lm).
    rewrite <- (app_nil_r ds) at 1.
    apply take_app_length'. exact Ld. }
  rewrite Sy, Sm, Sd in HDate.
  rewrite !signed_decimal_digits in HDate
    by (assumption || (intros ->; discriminate)).
  assert (time_Time_Date (Date r) = (decimal ys, decimal ms, decimal ds))
    as Hrt by (rewrite HDate; apply time_Date_round_trip; exact Hvalid).
  split; [exact Hrt|].
  unfold Dump. rewrite (time_Time_String_shown _ _ _ _ Hrt). reflexivity.
Qed.

(** X14: when none of the three sub-fields of the date spells an integer,
    as in a blank or zero-filled date field, the decoded date is
    [time.Date(0, 0, 0, ...)], which Go normalises to 30 November of the
    year before year 0, and the report shows that day. *)
Theorem Parse_date_unreadable
    (fs : gmap string (list byte)) (filename : string) (r : SAUCE)
    (f : list byte) :
  Parse fs filename = (Some r, None) ->
  fs !! filename = Some f ->
  numeric (slice 82 86 (trailer f)) = false ->
  numeric (slice 86 88 (trailer f)) = false ->
  numeric (slice 88 90 (trailer f)) = false ->
  Date r = time_Date 0 0 0
  /\ time_Time_Date (Date r) = (-1, 11, 30)
  /\ Dump r !! 5%nat
     = Some ("date....: -0001-11-30 00:00:00 +0000 UTC" +:+ LF).
Proof.
  intros decoded Hf Ny Nm Nd.
  destruct (Parse_date_fields _ _ _ decoded) as (f' & Hf' & HDate).
  rewrite Hf in Hf'. injection Hf' as <-.
  unfold signed_decimal in HDate. rewrite Ny, Nm, Nd in HDate.
  split; [exact HDate|].
  split; [rewrite HDate; reflexivity|].
  unfold Dump. rewrite HDate. reflexivity.
Qed.

(** ** The record header and the command *)

(** X15: the identifier of every decoded record is the signature, equal
    to the first five bytes of the trailer, and the first two lines of
    its report are always "id......: SAUCE" and "version.: 00". *)
Theorem Parse_header
    (fs : gmap string (list byte)) (filename : string) (r : SAUCE) :
  Parse fs filename = (Some r, None) ->
  ID r = SAUCEID
  /\ (exists f, fs !! filename = Some f /\ ID r = slice 0 5 (trailer f))
  /\ Dump r !! 0%nat = Some ("id......: SAUCE" +:+ LF)
  /\ Dump r !! 1%nat = Some ("version.: 00" +:+ LF).
Proof.
  intros decoded.
  destruct (Parse_Some_inv _ _ _ _ decoded) as (f & Hf & _ & Hsig & -> & _).
  split; [reflexivity|]. split; [exists f; split; [exact Hf | symmetry; exact Hsig]|].
  split; reflexivity.
Qed.



(** ** Witnesses *)

Lemma Parse_ignores_body_witness :
  length blank_date_trailer = 128%nat
  /\ [ASCIISub] <> []
  /\ list_byte_of_string "Some text" <> []
  /\ more_fs !! "blank.ans" = Some ([ASCIISub] ++ blank_date_trailer)
  /\ more_fs !! "blank2.ans"
     = Some (list_byte_of_string "Some text" ++ blank_date_trailer)
  /\ Parse more_fs "blank.ans" = Parse more_fs "blank2.ans".
Proof.
  assert (H1 : length blank_date_trailer = 128%nat) by decoded_sample.
  assert (H2 : [ASCIISub] <> []) by discriminate.
  assert (H3 : list_byte_of_string "Some text" <> []) by discriminate.
  assert (H4 : more_fs !! "blank.ans" = Some ([ASCIISub] ++ blank_date_trailer))
    by decoded_sample.
  assert (H5 : more_fs !! "blank2.ans"
               = Some (list_byte_of_string "Some text" ++ blank_date_trailer))
    by decoded_sample.
  refine (conj H1 (conj H2 (conj H3 (conj H4 (conj H5 _))))).
  exact (Parse_ignores_body more_fs more_fs "blank.ans" "blank2.ans"
           _ _ _ H1 H2 H3 H4 H5).
Defined.

Lemma Parse_numeric_fields_witness :
  Parse more_fs "picture.gif"
  = (Some (record_of (trailer ([ASCIISub] ++ bitmap_trailer))), None)
  /\ exists f, more_fs !! "picture.gif" = Some f
    /\ FileSize (record_of (trailer ([ASCIISub] ++ bitmap_trailer)))
       = byte_at (trailer f) 91 + 2 ^ 8 * byte_at (trailer f) 92
         + 2 ^ 16 * byte_at (trailer f) 93 + 2 ^ 24 * byte_at (trailer f) 94
    /\ DataType (record_of (trailer ([ASCIISub] ++ bitmap_trailer)))
       = byte_at (trailer f) 94
    /\ FileType (record_of (trailer ([ASCIISub] ++ bitmap_trailer)))
       = byte_at (trailer f) 95
    /\ TInfo (record_of (trailer ([ASCIISub] ++ bitmap_trailer)))
       = [ byte_at (trailer f) 96 + 256 * byte_at (trailer f) 97;
           byte_at (trailer f) 98 + 256 * byte_at (trailer f) 99;
           byte_at (trailer f) 100 + 256 * byte_at (trailer f) 101;
           byte_at (trailer f) 102 + 256 * byte_at (trailer f) 103 ].
Proof.
  assert (H : Parse more_fs "picture.gif"
              = (Some (record_of (trailer ([ASCIISub] ++ bitmap_trailer))), None))
    by decoded_sample.
  split; [exact H|].
  exact (Parse_numeric_fields more_fs "picture.gif" _ H).
Defined.

Lemma Parse_field_ranges_witness :
  Parse more_fs "unknown.bin"
  = (Some (record_of (trailer ([ASCIISub] ++ unknown_type_trailer))), None)
  /\ 0 <= DataType (record_of (trailer ([ASCIISub] ++ unknown_type_trailer)))
     < 256.
Proof.
  assert (H : Parse more_fs "unknown.bin"
              = (Some (record_of (trailer ([ASCIISub] ++ unknown_type_trailer))),
                 None))
    by decoded_sample.
  split; [exact H|].
  exact (proj1 (proj2 (Parse_field_ranges more_fs "unknown.bin" _ H))).
Defined.

Lemma Parse_text_cut_from_fields_witness :
  Parse sample_fs "long.ans"
  = (Some (record_of (trailer long_title_file)), None)
  /\ (String.length (Title (record_of (trailer long_title_file))) <= 34)%nat.
Proof.
  assert (H : Parse sample_fs "long.ans"
              = (Some (record_of (trailer long_title_file)), None))
    by decoded_sample.
  split; [exact H|].
  destruct (Parse_text_cut_from_fields sample_fs "long.ans" _ H)
    as (f & _ & _ & _ & _ & Hlen & _).
  exact Hlen.
Defined.

Lemma Parse_text_has_no_outer_blank_witness :
  Parse sample_fs "ansi.ans" = (Some (record_of (trailer ansi_file)), None)
  /\ no_outer_blank
       (list_byte_of_string (Title (record_of (trailer ansi_file)))).
Proof.
  assert (H : Parse sample_fs "ansi.ans"
              = (Some (record_of (trailer ansi_file)), None))
    by decoded_sample.
  split; [exact H|].
  exact (proj1 (Parse_text_has_no_outer_blank sample_fs "ansi.ans" _ H)).
Defined.

Lemma Parse_text_round_trip_witness :
  Parse sample_fs "ansi.ans" = (Some (record_of (trailer ansi_file)), None)
  /\ sample_fs !! "ansi.ans" = Some ansi_file
  /\ blanks [] /\ blanks (replicate 29 " "%byte)
  /\ Forall is_ascii (list_byte_of_string "Title")
  /\ no_outer_blank (list_byte_of_string "Title")
  /\ slice 7 41 (trailer ansi_file)
     = [] ++ list_byte_of_string "Title" ++ replicate 29 " "%byte
  /\ Title (record_of (trailer ansi_file)) = "Title".
Proof.
  assert (H : Parse sample_fs "ansi.ans"
              = (Some (record_of (trailer ansi_file)), None))
    by decoded_sample.
  assert (Hf : sample_fs !! "ansi.ans" = Some ansi_file) by decoded_sample.
  assert (H1 : blanks []) by constructor.
  assert (H2 : blanks (replicate 29 " "%byte))
    by (apply Forall_replicate; reflexivity).
  assert (H3 : Forall is_ascii (list_byte_of_string "Title"))
    by (repeat constructor).
  assert (H4 : no_outer_blank (list_byte_of_string "Title")).
  { split.
    - intros c rest [= <- _]. reflexivity.
    - intros init c Heq.
      change (list_byte_of_string "Title")
        with (list_byte_of_string "Titl" ++ ["e"%byte]) in Heq.
      apply app_inj_tail in Heq as [_ <-]. reflexivity. }
  assert (H5 : slice 7 41 (trailer ansi_file)
               = [] ++ list_byte_of_string "Title" ++ replicate 29 " "%byte)
    by decoded_sample.
  refine (conj H (conj Hf (conj H1 (conj H2 (conj H3 (conj H4 (conj H5 _))))))).
  exact (proj1 (Parse_text_round_trip sample_fs "ansi.ans" _ ansi_file
                  [] _ _ H Hf H1 H2 H3 H4) H5).
Defined.

Lemma Dump_size_bitmap_witness :
  DataType (record_of (trailer ([ASCIISub] ++ bitmap_trailer))) = 2
  /\ Dump (record_of (trailer ([ASCIISub] ++ bitmap_trailer))) !! 10%nat
     = Some ("size....: 640 x 480 pixels" +:+ LF).
Proof.
  assert (H : DataType (record_of (trailer ([ASCIISub] ++ bitmap_trailer))) = 2)
    by decoded_sample.
  split; [exact H|].
  exact (proj2 (Dump_size_bitmap _ H)).
Defined.


Lemma DataTypeString_known_witness :
  0 <= DataType (typed_record 200 9) < 256
  /\ 8 < DataType (typed_record 200 9)
  /\ DataTypeString (typed_record 200 9) = ""
  /\ Dump (typed_record 200 9) !! 7%nat = Some ("datatype: 200 ()" +:+ LF).
Proof.
  assert (H1 : 0 <= DataType (typed_record 200 9) < 256) by (vm_compute; intuition discriminate).
  assert (H2 : 8 < DataType (typed_record 200 9)) by (vm_compute; intuition discriminate).
  refine (conj H1 (conj H2 _)).
  exact (proj2 (DataTypeString_known _ H1) H2).
Defined.

Lemma FileTypeString_known_witness :
  0 <= DataType (typed_record 1 9) < 256
  /\ 0 <= FileType (typed_record 1 9) < 256
  /\ 0 < file_type_count (DataType (typed_record 1 9))
       <= FileType (typed_record 1 9)
  /\ FileTypeString (typed_record 1 9) = ""
  /\ Dump (typed_record 1 9) !! 8%nat = Some ("filetype: 9 ()" +:+ LF).
Proof.
  assert (H1 : 0 <= DataType (typed_record 1 9) < 256) by (vm_compute; intuition discriminate).
  assert (H2 : 0 <= FileType (typed_record 1 9) < 256) by (vm_compute; intuition discriminate).
  assert (H3 : 0 < file_type_count (DataType (typed_record 1 9))
               <= FileType (typed_record 1 9)) by (vm_compute; intuition discriminate).
  refine (conj H1 (conj H2 (conj H3 _))).
  exact (proj2 (FileTypeString_known _ H1 H2) H3).
Defined.

Lemma Parse_date_fields_witness :
  Parse sample_fs "undated.ans"
  = (Some (record_of (trailer undated_file)), None)
  /\ exists f, sample_fs !! "undated.ans" = Some f
    /\ Date (record_of (trailer undated_file))
       = time_Date (signed_decimal (slice 82 86 (trailer f)))
                   (signed_decimal (slice 86 88 (trailer f)))
                   (signed_decimal (slice 88 90 (trailer f))).
Proof.
  assert (H : Parse sample_fs "undated.ans"
              = (Some (record_of (trailer undated_file)), None))
    by decoded_sample.
  split; [exact H|].
  exact (Parse_date_fields sample_fs "undated.ans" _ H).
Defined.

Lemma Parse_date_round_trip_witness :
  Parse more_fs "odd.txt"
  = (Some (record_of (trailer ([ASCIISub] ++ character_9_trailer))), None)
  /\ more_fs !! "odd.txt" = Some ([ASCIISub] ++ character_9_trailer)
  /\ forallb is_digit (list_byte_of_string "2000" ++ list_byte_of_string "02"
                       ++ list_byte_of_string "29") = true
  /\ slice 82 90 (trailer ([ASCIISub] ++ character_9_trailer))
     = list_byte_of_string "2000" ++ list_byte_of_string "02"
       ++ list_byte_of_string "29"
  /\ valid_date (decimal (list_byte_of_string "2000"))
       (decimal (list_byte_of_string "02")) (decimal (list_byte_of_string "29"))
  /\ time_Time_Date
       (Date (record_of (trailer ([ASCIISub] ++ character_9_trailer))))
     = (2000, 2, 29)
  /\ Dump (record_of (trailer ([ASCIISub] ++ character_9_trailer))) !! 5%nat
     = Some ("date....: 2000-02-29 00:00:00 +0000 UTC" +:+ LF).
Proof.
  assert (H : Parse more_fs "odd.txt"
              = (Some (record_of (trailer ([ASCIISub] ++ character_9_trailer))),
                 None))
    by decoded_sample.
  assert (Hf : more_fs !! "odd.txt" = Some ([ASCIISub] ++ character_9_trailer))
    by decoded_sample.
  assert (Hd : forallb is_digit
                 (list_byte_of_string "2000" ++ list_byte_of_string "02"
                  ++ list_byte_of_string "29") = true) by decoded_sample.
  assert (Hs : slice 82 90 (trailer ([ASCIISub] ++ character_9_trailer))
               = list_byte_of_string "2000" ++ list_byte_of_string "02"
                 ++ list_byte_of_string "29")
    by decoded_sample.
  assert (Hv : valid_date (decimal (list_byte_of_string "2000"))
                 (decimal (list_byte_of_string "02"))
                 (decimal (list_byte_of_string "29")))
    by (vm_compute; intuition discriminate).
  refine (conj H (conj Hf (conj Hd (conj Hs (conj Hv _))))).
  exact (Parse_date_round_trip more_fs "odd.txt" _ _
           (list_byte_of_string "2000") (list_byte_of_string "02")
           (list_byte_of_string "29") H Hf eq_refl eq_refl eq_refl Hd Hs Hv).
Defined.

Lemma Parse_date_unreadable_witness :
  Parse more_fs "blank.ans"
  = (Some (record_of (trailer ([ASCIISub] ++ blank_date_trailer))), None)
  /\ more_fs !! "blank.ans" = Some ([ASCIISub] ++ blank_date_trailer)
  /\ numeric (slice 82 86 (trailer ([ASCIISub] ++ blank_date_trailer))) = false
  /\ numeric (slice 86 88 (trailer ([ASCIISub] ++ blank_date_trailer))) = false
  /\ numeric (slice 88 90 (trailer ([ASCIISub] ++ blank_date_trailer))) = false
  /\ Dump (record_of (trailer ([ASCIISub] ++ blank_date_trailer))) !! 5%nat
     = Some ("date....: -0001-11-30 00:00:00 +0000 UTC" +:+ LF).
Proof.
  assert (H : Parse more_fs "blank.ans"
              = (Some (record_of (trailer ([ASCIISub] ++ blank_date_trailer))),
                 None))
    by decoded_sample.
  assert (Hf : more_fs !! "blank.ans" = Some ([ASCIISub] ++ blank_date_trailer))
    by decoded_sample.
  assert (N1 : numeric (slice 82 86 (trailer ([ASCIISub] ++ blank_date_trailer)))
               = false) by decoded_sample.
  assert (N2 : numeric (slice 86 88 (trailer ([ASCIISub] ++ blank_date_trailer)))
               = false) by decoded_sample.
  assert (N3 : numeric (slice 88 90 (trailer ([ASCIISub] ++ blank_date_trailer)))
               = false) by decoded_sample.
  refine (conj H (conj Hf (conj N1 (conj N2 (conj N3 _))))).
  exact (proj2 (proj2 (Parse_date_unreadable more_fs "blank.ans" _ _
                         H Hf N1 N2 N3))).
Defined.

Lemma Parse_header_witness :
  Parse sample_fs "ansi.ans" = (Some (record_of (trailer ansi_file)), None)
  /\ ID (record_of (trailer ansi_file)) = SAUCEID.
Proof.
  assert (H : Parse sample_fs "ansi.ans"
              = (Some (record_of (trailer ansi_file)), None))
    by decoded_sample.
  split; [exact H|].
  exact (proj1 (Parse_header sample_fs "ansi.ans" _ H)).
Defined.
